(** * llama-index-supervisor: the Supervisor workflow

    A shallow embedding of [src/llama_index_supervisor/supervisor.py] and the
    properties of its control loop and memory protocol.

    Python objects that are shared by reference (the chat store behind a
    [ChatMemoryBuffer], the [tool_msgs] list that is cleared in place) live
    in an explicit state; exceptions are values of [result]. *)

From stdpp Require Import gmap strings list fin_maps.


(** ** Exceptions

    [exn] holds the instances of [Exception]: the ones that
    [except Exception] catches. What a callable may raise beyond them is
    [BaseException], further down. *)

Inductive exn : Type :=
  | AssertionError (msg : string)
  | ValueError (msg : string)
  | TypeError (msg : string)
  | IndexError (msg : string)
  | AttributeError (msg : string)
  | RuntimeError (msg : string).

(** [str(e)] for [except Exception as e]. *)
Definition exn_str (e : exn) : string :=
  match e with
  | AssertionError m | ValueError m | TypeError m
  | IndexError m | AttributeError m | RuntimeError m => m
  end.

Inductive result (A : Type) : Type :=
  | Ok (a : A)
  | Raise (e : exn).
Arguments Ok {A} a.
Arguments Raise {A} e.

Definition is_ok {A} (r : result A) : bool :=
  match r with Ok _ => true | Raise _ => false end.

(** ** Strings *)

Fixpoint strip_prefix (p s : string) : option string :=
  match p with
  | EmptyString => Some s
  | String a p' =>
      match s with
      | EmptyString => None
      | String b s' => if Ascii.eqb a b then strip_prefix p' s' else None
      end
  end.

(** [str.removeprefix]: the string without the prefix when it starts with
    it, the string itself otherwise. *)
Definition removeprefix (s p : string) : string :=
  default s (strip_prefix p s).

(** [sep.join(l)]. *)
Definition join (sep : string) (l : list string) : string :=
  String.concat sep l.

(** How an f-string renders the value of [dict.get]: [None] when absent. *)
Definition fmt (o : option string) : string := default "None" o.

(** ** Messages, tool calls, tools *)

(** [MessageRole] of llama-index. *)
Inductive MessageRole : Type := SYSTEM | USER | ASSISTANT | TOOL.

Global Instance MessageRole_eq_dec : EqDecision MessageRole.
Proof. solve_decision. Defined.

Record ChatMessage : Type := mkChatMessage {
  role : MessageRole;
  content : string;
  additional_kwargs : gmap string string
}.

Global Instance ChatMessage_eq_dec : EqDecision ChatMessage.
Proof. solve_decision. Defined.

(** [ToolSelection] of llama-index: what the model asks to call. *)
Record ToolSelection : Type := mkToolSelection {
  tool_id : string;
  tool_name : string;
  tool_kwargs : gmap string string
}.

Global Instance ToolSelection_eq_dec : EqDecision ToolSelection.
Proof. solve_decision. Defined.

(** A tool: its [metadata.name] and its call, which returns the content of
    its output or raises. *)
Record BaseTool : Type := mkTool {
  metadata_name : string;
  call : gmap string string → result string
}.

(** ** Memory

    [ChatMemoryBuffer] is a pydantic model with the fields [chat_store] (a
    reference to a [SimpleChatStore]) and [chat_store_key]. The stores live
    in the heap; a store is its [store] dict, from key to message list. *)

Definition loc := nat.

Record ChatMemoryBuffer : Type := mkMemory {
  chat_store : loc;
  chat_store_key : string
}.

Global Instance ChatMemoryBuffer_eq_dec : EqDecision ChatMemoryBuffer.
Proof. solve_decision. Defined.

Abbreviation SimpleChatStore := (gmap string (list ChatMessage)).
Abbreviation Heap := (gmap loc (gmap string (list ChatMessage))).

(** [SimpleChatStore.get_messages(key)]: [self.store.get(key, [])]. *)
Definition get_messages (key : string) (st : SimpleChatStore) : list ChatMessage :=
  default [] (st !! key).

(** [SimpleChatStore.add_message(key, message)]:
    [self.store.setdefault(key, []).append(message)]. *)
Definition add_message (key : string) (msg : ChatMessage)
    (st : SimpleChatStore) : SimpleChatStore :=
  <[key := get_messages key st ++ [msg]]> st.

(** [SimpleChatStore.delete_message(key, idx)]: nothing when the key is
    absent or the index is past the end, [self.store[key].pop(idx)]
    otherwise. *)
Definition delete_message (key : string) (idx : nat)
    (st : SimpleChatStore) : SimpleChatStore :=
  match st !! key with
  | None => st
  | Some l => if decide (length l ≤ idx) then st else <[key := delete idx l]> st
  end.

(** [memory.get_all()]. *)
Definition get_all (h : Heap) (m : ChatMemoryBuffer) : list ChatMessage :=
  default [] (get_messages (chat_store_key m) <$> h !! chat_store m).

(** [memory.put(msg)] and [memory.aput(msg)]: both add to the chat store. *)
Definition put (m : ChatMemoryBuffer) (msg : ChatMessage) (h : Heap) : Heap :=
  alter (add_message (chat_store_key m) msg) (chat_store m) h.

(** [memo.chat_store.delete_message(memo.chat_store_key, idx)]. *)
Definition memory_delete_message (m : ChatMemoryBuffer) (idx : nat) (h : Heap) : Heap :=
  alter (delete_message (chat_store_key m) idx) (chat_store m) h.

(** [memory.model_copy()]: pydantic's [model_copy(update=None, deep=False)]
    builds a new model object from a shallow copy of the fields, so the copy's
    [chat_store] is the reference the original holds. *)
Definition model_copy (m : ChatMemoryBuffer) : ChatMemoryBuffer :=
  {| chat_store := chat_store m; chat_store_key := chat_store_key m |}.

(** [ChatMemoryBuffer.from_defaults(...)]: a buffer over a new, empty
    [SimpleChatStore] under the default key. *)
Definition from_defaults (h : Heap) : ChatMemoryBuffer * Heap :=
  let l := fresh (dom h) in
  ({| chat_store := l; chat_store_key := "chat_history" |}, <[l := ∅]> h).

(** ** Collaborators *)

(** A sub-agent: its name and its run. [agent.run(ctx=new_ctx,
    chat_history=...)] receives the memory its context holds and the chat
    history. It is an external collaborator: it may change every chat store
    it can reach, may put another memory in its context, and may raise. The
    run returns the memory its context holds at the end, with the heap it
    leaves. *)
Record Agent : Type := mkAgent {
  agent_name : string;
  agent_run : ChatMemoryBuffer → list ChatMessage → Heap →
              result ChatMemoryBuffer * Heap
}.

Record ChatResponse : Type := mkResponse {
  message : ChatMessage;
  delta : option string
}.

(** The model: [metadata.is_function_calling_model], the responses that
    [astream_chat_with_tools] streams, and [get_tool_calls_from_response]
    (called with [error_on_no_tool_call=False], so it does not raise). *)
Record FunctionCallingLLM : Type := mkLLM {
  is_function_calling_model : bool;
  astream_chat_with_tools : list BaseTool → list ChatMessage → list ChatResponse;
  get_tool_calls_from_response : ChatResponse → list ToolSelection
}.

(** ** State and the monad of the workflow steps *)

(** One call of [agent.run], as the trace keeps it: the agent, the chat
    history it was given, and what the memory of its context held then. *)
Record AgentRun : Type := mkRun {
  run_agent : string;
  run_chat_history : list ChatMessage;
  run_memory : list ChatMessage
}.

Record State : Type := mkState {
  heap : Heap;                          (* the chat stores *)
  ctx_memory : option ChatMemoryBuffer; (* ctx entry "memory" *)
  tool_msgs : list ChatMessage;         (* the list of [handle_tool_calls] *)
  stream : list string;                 (* deltas of the StreamEvents written *)
  runs : list AgentRun                  (* trace of the sub-agent runs *)
}.

Definition set_heap (h : Heap) (s : State) : State :=
  mkState h (ctx_memory s) (tool_msgs s) (stream s) (runs s).
Definition set_ctx_memory (m : ChatMemoryBuffer) (s : State) : State :=
  mkState (heap s) (Some m) (tool_msgs s) (stream s) (runs s).
Definition set_tool_msgs (l : list ChatMessage) (s : State) : State :=
  mkState (heap s) (ctx_memory s) l (stream s) (runs s).
Definition add_stream (d : string) (s : State) : State :=
  mkState (heap s) (ctx_memory s) (tool_msgs s) (stream s ++ [d]) (runs s).
Definition add_run (r : AgentRun) (s : State) : State :=
  mkState (heap s) (ctx_memory s) (tool_msgs s) (stream s) (runs s ++ [r]).

Global Instance result_ret : MRet result := λ A a, Ok a.
Global Instance result_bind : MBind result := λ A B k r,
  match r with Ok a => k a | Raise e => Raise e end.

(** A step reads and changes the state and returns or raises; what it
    changed before it raised stays changed. *)
Definition M (A : Type) : Type := State → result A * State.

Global Instance M_ret : MRet M := λ A a s, (Ok a, s).
Global Instance M_bind : MBind M := λ A B k c s,
  match c s with
  | (Ok a, s') => k a s'
  | (Raise e, s') => (Raise e, s')
  end.

Definition raise {A} (e : exn) : M A := λ s, (Raise e, s).
Definition gets {A} (f : State → A) : M A := λ s, (Ok (f s), s).
Definition modify (f : State → State) : M unit := λ s, (Ok tt, f s).

(** [try: body except Exception as e: handler e]. *)
Definition try_except {A} (body : M A) (handler : exn → M A) : M A := λ s,
  match body s with
  | (Ok a, s') => (Ok a, s')
  | (Raise e, s') => handler e s'
  end.

(** [for x in l: body x]. *)
Fixpoint for_each {A} (l : list A) (body : A → M unit) : M unit :=
  match l with
  | [] => mret tt
  | x :: l' => body x ;; for_each l' body
  end.

(** [await ctx.get("memory")], without a default. *)
Definition ctx_get_memory : M ChatMemoryBuffer := λ s,
  match ctx_memory s with
  | Some m => (Ok m, s)
  | None => (Raise (ValueError "Key 'memory' not found in Context"), s)
  end.

(** [await ctx.set("memory", memory)]. *)
Definition ctx_set_memory (m : ChatMemoryBuffer) : M unit :=
  modify (set_ctx_memory m).

Definition memory_put (m : ChatMemoryBuffer) (msg : ChatMessage) : M unit :=
  modify (λ s, set_heap (put m msg (heap s)) s).

Definition memory_get_all (m : ChatMemoryBuffer) : M (list ChatMessage) :=
  gets (λ s, get_all (heap s) m).

(** [tool_msgs.append(msg)] and [tool_msgs.extend(msgs)]. *)
Definition tool_msgs_append (msg : ChatMessage) : M unit :=
  modify (λ s, set_tool_msgs (tool_msgs s ++ [msg]) s).
Definition tool_msgs_extend (msgs : list ChatMessage) : M unit :=
  modify (λ s, set_tool_msgs (tool_msgs s ++ msgs) s).

(** ** The Supervisor object *)

(** The values [system_prompt] is passed as. *)
Inductive SystemPromptArg : Type :=
  | SPNone
  | SPStr (s : string)
  | SPStrList (l : list string)
  | SPMessage (m : ChatMessage)
  | SPMessageList (l : list ChatMessage).

(** The arguments of [Supervisor.__init__]; [agents] in iteration order. *)
Record SupervisorArgs : Type := mkArgs {
  arg_llm : FunctionCallingLLM;
  arg_agents : list Agent;
  arg_tools : list BaseTool;
  arg_name : string;
  arg_system_prompt : SystemPromptArg;
  arg_add_handoff_back_messages : bool;
  arg_output_mode : string
}.

Definition DEFAULT_SYSTEM_PROMPT : string :=
  "You are a supervisor agent. You will be responsible for managing the workflow of other agents and tools. "
  +:+ "You will receive user input and delegate tasks to the appropriate agents or tools. "
  +:+ "You will also handle the responses from the agents and tools, and provide feedback to the user. ".

(** The attributes [__init__] sets on [self]. *)
Record Supervisor : Type := mkSupervisor {
  name : string;
  llm : FunctionCallingLLM;
  system_prompt : list ChatMessage;
  add_handoff_back_messages : bool;
  output_mode : string;
  tools : list BaseTool;
  agents : list Agent;
  agent_names : gset string;
  agents_by_name : gmap string Agent;
  agent_tools : list BaseTool;
  tools_by_name : gmap string BaseTool;
  agents_by_tool_name : gmap string BaseTool
}.

(** [assert cond, msg]. *)
Definition assert (cond : bool) (msg : string) : result unit :=
  if cond then Ok tt else Raise (AssertionError msg).

(** [if system_prompt:]: [None], the empty string and the empty list are
    false, a [ChatMessage] is true. *)
Definition truthy (sp : SystemPromptArg) : bool :=
  match sp with
  | SPNone => false
  | SPStr s => negb (String.eqb s "")
  | SPStrList l => negb (bool_decide (l = []))
  | SPMessage _ => true
  | SPMessageList l => negb (bool_decide (l = []))
  end.

(** [isinstance(x, str)] and [isinstance(x, ChatMessage)]. *)
Definition isinstance_str (sp : SystemPromptArg) : bool :=
  match sp with SPStr _ => true | _ => false end.
Definition isinstance_ChatMessage (sp : SystemPromptArg) : bool :=
  match sp with SPMessage _ => true | _ => false end.

(** [isinstance(x, list[str])] and [isinstance(x, list[ChatMessage])]: the
    second argument is a parameterized generic, and [isinstance] raises on
    one whatever [x] is. *)
Definition isinstance_parameterized_generic (sp : SystemPromptArg) : result bool :=
  Raise (TypeError "isinstance() argument 2 cannot be a parameterized generic").

Definition system_message (s : string) : ChatMessage :=
  mkChatMessage SYSTEM s ∅.

(** Lines 58-70 of [__init__]. When no branch is taken the attribute is
    not set; reading it later is an [AttributeError]. *)
Definition init_system_prompt (sp : SystemPromptArg) : result (list ChatMessage) :=
  if truthy sp then
    if isinstance_str sp then
      Ok (match sp with SPStr s => [system_message s] | _ => [] end)
    else
      is_str_list ← isinstance_parameterized_generic sp;
      if is_str_list : bool then
        Ok (match sp with SPStrList l => system_message <$> l | _ => [] end)
      else if isinstance_ChatMessage sp then
        Ok (match sp with SPMessage m => [m] | _ => [] end)
      else
        is_msg_list ← isinstance_parameterized_generic sp;
        if is_msg_list : bool then
          Ok (match sp with SPMessageList l => l | _ => [] end)
        else
          Raise (AttributeError "'Supervisor' object has no attribute 'system_prompt'")
  else Ok [].

Section Supervisor.

(** [handoff.py] is not part of the sources at hand; what it exports is
    taken as given. *)
Variable _normalize_agent_name : string → string.
Variable create_handoff_tool : Agent → BaseTool.
Variable create_handoff_back_messages : string → string → list ChatMessage.

(** [ChatMemoryBuffer.get()] returns the most recent messages of the
    store that fit the token limit of the buffer; the limit and the
    tokenizer belong to the buffer, so the selection is taken as given. *)
Variable token_window : list ChatMessage → list ChatMessage.

Definition memory_get (m : ChatMemoryBuffer) : M (list ChatMessage) :=
  gets (λ s, token_window (get_all (heap s) m)).

(** *** Construction *)

Definition duplicate_agent_error (normalized_name : string) : exn :=
  ValueError ("Duplicate agent name found: " +:+ normalized_name
              +:+ ". Agent names must be unique.").

(** The loop of [_setup_agents], from the names and the table so far. *)
Fixpoint _setup_agents_from (l : list Agent) (names : gset string)
    (by_name : gmap string Agent) : result (gset string * gmap string Agent) :=
  match l with
  | [] => Ok (names, by_name)
  | agent :: l' =>
      let normalized_name := _normalize_agent_name (agent_name agent) in
      if decide (is_Some (by_name !! normalized_name)) then
        Raise (duplicate_agent_error normalized_name)
      else
        _setup_agents_from l' ({[normalized_name]} ∪ names)
                           (<[normalized_name := agent]> by_name)
  end.

Definition _setup_agents (l : list Agent) : result (gset string * gmap string Agent) :=
  _setup_agents_from l ∅ ∅.

(** [{tool.metadata.get_name(): tool for tool in l}]: a later tool
    replaces an earlier one of the same name. *)
Definition by_tool_name (l : list BaseTool) : gmap string BaseTool :=
  foldl (λ d t, <[metadata_name t := t]> d) ∅ l.

Definition Supervisor_init (a : SupervisorArgs) : result Supervisor :=
  assert (is_function_calling_model (arg_llm a))
         "Supervisor only supports function calling LLMs" ;;
  assert (bool_decide (arg_output_mode a ∈ ["full_history"; "last_message"]))
         "output_mode must be either 'full_history' or 'last_message'" ;;
  assert (bool_decide (0 < length (arg_agents a) + length (arg_tools a)))
         "At least one agent or tool must be provided" ;;
  sp ← init_system_prompt (arg_system_prompt a);
  (* _setup_agents *)
  '(names, by_name) ← _setup_agents (arg_agents a);
  (* _setup_tools *)
  let agent_tools := create_handoff_tool <$> arg_agents a in
  let tools := arg_tools a ++ agent_tools in
  Ok {| name := arg_name a;
        llm := arg_llm a;
        system_prompt := sp;
        add_handoff_back_messages := arg_add_handoff_back_messages a;
        output_mode := arg_output_mode a;
        tools := tools;
        agents := arg_agents a;
        agent_names := names;
        agents_by_name := by_name;
        agent_tools := agent_tools;
        tools_by_name := by_tool_name tools;
        agents_by_tool_name := by_tool_name agent_tools |}.

(** *** Events of the workflow *)

Inductive Event : Type :=
  | InputEvent (input : list ChatMessage)
  | ToolCallEvent (tool_calls : list ToolSelection)
  | StopEvent (response : ChatResponse).

Variable self : Supervisor.

(** *** Memory updates *)

(** [_update_memory(ctx, tool_msgs)]: nothing for an empty list;
    otherwise every message is put in the memory of the context and the
    list is cleared in place. *)
Definition _update_memory : M unit :=
  messages ← gets tool_msgs;
  if bool_decide (messages = []) then mret tt
  else
    memory ← ctx_get_memory;
    for_each messages (memory_put memory) ;;
    modify (set_tool_msgs []) ;;
    ctx_set_memory memory.

Definition _get_input_event : M Event :=
  memory ← ctx_get_memory;
  input ← memory_get memory;
  mret (InputEvent input).

(** *** Regular tools *)

(** [{"tool_call_id": tool_call.tool_id, "name": tool_name}]. *)
Definition call_kwargs (tc : ToolSelection) : gmap string string :=
  <["name" := tool_name tc]> (<["tool_call_id" := tool_id tc]> ∅).

Definition _create_tool_error_message (content : string)
    (kwargs : gmap string string) : ChatMessage :=
  mkChatMessage TOOL content kwargs.

(** The body of the loop of [_process_regular_tools]. *)
Definition process_regular_tool (tool_call : ToolSelection) : M unit :=
  let tool_name := tool_name tool_call in
  let additional_kwargs := call_kwargs tool_call in
  match tools_by_name self !! tool_name with
  | None =>
      tool_msgs_append
        (_create_tool_error_message
           ("Tool " +:+ tool_name +:+ " does not exist") additional_kwargs)
  | Some tool =>
      try_except
        (tool_output ← (λ s, (call tool (tool_kwargs tool_call), s)) : M string;
         tool_msgs_append (mkChatMessage TOOL tool_output additional_kwargs))
        (λ e,
         tool_msgs_append
           (_create_tool_error_message
              ("Encountered error in tool call: " +:+ exn_str e)
              additional_kwargs))
  end.

Definition _process_regular_tools (regular_tools : list ToolSelection) : M unit :=
  for_each regular_tools process_regular_tool.

(** *** Handoffs *)

(** [any(tc.tool_name == at.metadata.name for at in self.agent_tools)]. *)
Definition is_handoff (tc : ToolSelection) : Prop :=
  Exists (λ t, tool_name tc = metadata_name t) (agent_tools self).

Global Instance is_handoff_dec tc : Decision (is_handoff tc).
Proof. unfold is_handoff. apply _. Defined.

Definition _split_tool_calls (tool_calls : list ToolSelection)
    : list ToolSelection * list ToolSelection :=
  let agent_handoffs := filter is_handoff tool_calls in
  let regular_tools := filter (λ tc, tc ∉ agent_handoffs) tool_calls in
  (agent_handoffs, regular_tools).

(** [_run_agent]: the context of the agent gets [memory.model_copy()], the
    agent runs on [memory.get()], and the memory of the agent is merged
    back as [output_mode] says. *)
Definition call_agent (agent : Agent) (new_ctx_memory : ChatMemoryBuffer)
    (chat_history : list ChatMessage) : M ChatMemoryBuffer := λ s,
  let s1 := add_run {| run_agent := agent_name agent;
                       run_chat_history := chat_history;
                       run_memory := get_all (heap s) new_ctx_memory |} s in
  let '(r, h) := agent_run agent new_ctx_memory chat_history (heap s1) in
  (r, set_heap h s1).

Definition _run_agent (agent : Agent) : M unit :=
  memory ← ctx_get_memory;
  let new_ctx_memory := model_copy memory in
  chat_history ← memory_get memory;
  new_ctx_memory ← call_agent agent new_ctx_memory chat_history;
  if bool_decide (output_mode self = "full_history") then
    let memo := new_ctx_memory in
    modify (λ s, set_heap (memory_delete_message memo 0 (heap s)) s) ;;
    ctx_set_memory memo
  else if bool_decide (output_mode self = "last_message") then
    let memo := new_ctx_memory in
    all ← memory_get_all memo;
    match last all with
    | None => raise (IndexError "list index out of range")
    | Some last_message => memory_put memory last_message
    end
  else mret tt.

Definition handoff_kwargs (handoff : ToolSelection) : gmap string string :=
  <["name" := tool_name handoff]> (<["tool_call_id" := tool_id handoff]> ∅).

Definition agent_missing_message (handoff : ToolSelection) : ChatMessage :=
  mkChatMessage TOOL
    ("Agent " +:+ tool_name handoff +:+ " does not exist")
    (handoff_kwargs handoff).

Definition transfer_message (agent : Agent) (handoff : ToolSelection) : ChatMessage :=
  let parameters := tool_kwargs handoff in
  let task := parameters !! "task" in
  let reason := parameters !! "reason" in
  mkChatMessage TOOL
    ("Successfully transferred to " +:+ agent_name agent +:+ " for task: "
     +:+ fmt task +:+ ", reason: " +:+ fmt reason)
    (handoff_kwargs handoff).

Definition _process_agent_handoff (handoff : ToolSelection) : M unit :=
  let handoff_agent := removeprefix (tool_name handoff) "transfer_to_" in
  match agents_by_name self !! handoff_agent with
  | None => tool_msgs_append (agent_missing_message handoff)
  | Some agent =>
      tool_msgs_append (transfer_message agent handoff) ;;
      _update_memory ;;
      _run_agent agent ;;
      if add_handoff_back_messages self then
        let handoff_messages :=
          create_handoff_back_messages (agent_name agent) (name self) in
        tool_msgs_extend handoff_messages ;;
        _update_memory
      else mret tt
  end.

Definition multiple_handoffs_message (handoff_names : list string)
    (handoff : ToolSelection) : ChatMessage :=
  mkChatMessage TOOL
    ("Multiple agent handoff tools selected: " +:+ join ", " handoff_names
     +:+ " - please select only one.")
    (handoff_kwargs handoff).

Definition _process_agent_handoffs (agent_handoffs : list ToolSelection) : M unit :=
  if bool_decide (1 < length agent_handoffs) then
    let handoff_names := tool_name <$> agent_handoffs in
    for_each agent_handoffs
      (λ handoff, tool_msgs_append (multiple_handoffs_message handoff_names handoff))
  else
    match agent_handoffs with
    | [handoff] => _process_agent_handoff handoff
    | _ => mret tt
    end.

(** *** The steps *)

(** [prepare_chat_history]; [input] is [ev.input]. *)
Definition prepare_chat_history (input : option string) : M Event :=
  fresh_memory ← (λ s, let '(m, h) := from_defaults (heap s) in
                       (Ok m, set_heap h s)) : M ChatMemoryBuffer;
  memory ← gets (λ s, default fresh_memory (ctx_memory s));
  (if bool_decide (input ≠ None ∧ input ≠ Some "")
   then memory_put memory (mkChatMessage USER (default "" input) ∅)
   else mret tt) ;;
  ctx_set_memory memory ;;
  input ← memory_get memory;
  mret (InputEvent input).

(** [_get_llm_response]: the model is queried with
    [self.system_prompt + chat_history]; every response of the stream is
    written out as a [StreamEvent]; the last one is returned, [None] for
    an empty stream. *)
Definition _get_llm_response (chat_history : list ChatMessage)
    : M (option ChatResponse) :=
  let response_stream :=
    astream_chat_with_tools (llm self) (tools self)
                            (system_prompt self ++ chat_history) in
  for_each response_stream
    (λ response, modify (add_stream (default "" (delta response)))) ;;
  mret (last response_stream).

Definition handle_llm_input (chat_history : list ChatMessage) : M Event :=
  response ← _get_llm_response chat_history;
  memory ← ctx_get_memory;
  match response with
  | None => raise (AttributeError "'NoneType' object has no attribute 'message'")
  | Some response =>
      memory_put memory (message response) ;;
      ctx_set_memory memory ;;
      let tool_calls := get_tool_calls_from_response (llm self) response in
      if bool_decide (tool_calls = []) then mret (StopEvent response)
      else mret (ToolCallEvent tool_calls)
  end.

Definition handle_tool_calls (tool_calls : list ToolSelection) : M Event :=
  let '(agent_handoffs, regular_tools) := _split_tool_calls tool_calls in
  modify (set_tool_msgs []) ;;
  _process_regular_tools regular_tools ;;
  _process_agent_handoffs agent_handoffs ;;
  _update_memory ;;
  _get_input_event.

End Supervisor.

(** * Exceptions that are not instances of [Exception]

    [exn] holds the instances of [Exception], and a [BaseTool] raises those
    only. A tool is a callable of the user and may raise any
    [BaseException]; [except Exception] at line 221 does not catch the
    ones that are not instances of [Exception]. The dispatcher is modelled
    a second time over such callables; on the tools of the main model the
    two agree ([_process_regular_tools_any_agrees]). *)

Inductive BaseException : Type :=
  | Exception (e : exn)
  | KeyboardInterrupt
  | SystemExit (code : string)
  | GeneratorExit
  | CancelledError.


Inductive outcome (A : Type) : Type :=
  | Returns (a : A)
  | Raises (b : BaseException).
Arguments Returns {A} a.
Arguments Raises {A} b.

Record AnyTool : Type := mkAnyTool {
  any_name : string;
  any_call : gmap string string → outcome string
}.

(** A tool of the main model, as such a callable. *)
Definition any_tool (t : BaseTool) : AnyTool :=
  {| any_name := metadata_name t;
     any_call := λ kwargs,
       match call t kwargs with
       | Ok output => Returns output
       | Raise e => Raises (Exception e)
       end |}.

(** The body of the loop of [_process_regular_tools], on the list
    [tool_msgs] that it is passed: the [try] returns, or its [except
    Exception] clause handles what was raised, or what was raised leaves
    the function. *)
Definition process_regular_tool_any (tools_by_name : gmap string AnyTool)
    (tool_call : ToolSelection) (tool_msgs : list ChatMessage)
    : outcome unit * list ChatMessage :=
  let tool_name := tool_name tool_call in
  let additional_kwargs := call_kwargs tool_call in
  match tools_by_name !! tool_name with
  | None =>
      (Returns tt,
       tool_msgs ++ [_create_tool_error_message
                       ("Tool " +:+ tool_name +:+ " does not exist") additional_kwargs])
  | Some tool =>
      match any_call tool (tool_kwargs tool_call) with
      | Returns tool_output =>
          (Returns tt, tool_msgs ++ [mkChatMessage TOOL tool_output additional_kwargs])
      | Raises b =>
          match b with
          | Exception e =>
              (Returns tt,
               tool_msgs ++ [_create_tool_error_message
                               ("Encountered error in tool call: " +:+ exn_str e)
                               additional_kwargs])
          | _ => (Raises b, tool_msgs)
          end
      end
  end.

(** [for tool_call in regular_tools: ...]: an exception that leaves the
    body ends the loop. *)
Fixpoint _process_regular_tools_any (tools_by_name : gmap string AnyTool)
    (regular_tools : list ToolSelection) (tool_msgs : list ChatMessage)
    : outcome unit * list ChatMessage :=
  match regular_tools with
  | [] => (Returns tt, tool_msgs)
  | tool_call :: rest =>
      match process_regular_tool_any tools_by_name tool_call tool_msgs with
      | (Returns _, tool_msgs') => _process_regular_tools_any tools_by_name rest tool_msgs'
      | (Raises b, tool_msgs') => (Raises b, tool_msgs')
      end
  end.

(** * Auxiliary definitions *)



(** Lines 334-343 of [_run_agent], what follows the return of
    [agent.run]: [memory] is the memory of the supervisor and
    [new_ctx_memory] the memory that the context of the agent holds. *)
Definition merge_back (self : Supervisor) (memory new_ctx_memory : ChatMemoryBuffer)
    : M unit :=
  if bool_decide (output_mode self = "full_history") then
    let memo := new_ctx_memory in
    modify (λ s, set_heap (memory_delete_message memo 0 (heap s)) s) ;;
    ctx_set_memory memo
  else if bool_decide (output_mode self = "last_message") then
    let memo := new_ctx_memory in
    all ← memory_get_all memo;
    match last all with
    | None => raise (IndexError "list index out of range")
    | Some last_message => memory_put memory last_message
    end
  else mret tt.

(** Lines 306-313 of [_process_agent_handoff] and 178-180 of
    [handle_tool_calls], what follows [_run_agent] in a turn; of the agent it
    takes the name only. *)
Definition after_run
    (create_handoff_back_messages : string → string → list ChatMessage)
    (token_window : list ChatMessage → list ChatMessage)
    (self : Supervisor) (agent_name : string) : M Event :=
  (if add_handoff_back_messages self then
     let handoff_messages := create_handoff_back_messages agent_name (name self) in
     tool_msgs_extend handoff_messages ;;
     _update_memory
   else mret tt) ;;
  _update_memory ;;
  _get_input_event token_window.

(** What follows the return of [agent.run] in a turn, given what the run
    returned. *)
Definition resume
    (create_handoff_back_messages : string → string → list ChatMessage)
    (token_window : list ChatMessage → list ChatMessage)
    (self : Supervisor) (agent_name : string) (memory : ChatMemoryBuffer)
    (r : result ChatMemoryBuffer) : M Event :=
  match r with
  | Ok new_ctx_memory =>
      merge_back self memory new_ctx_memory ;;
      after_run create_handoff_back_messages token_window self agent_name
  | Raise e => raise e
  end.

(** Putting a list of messages, one after the other. *)
Definition put_all (m : ChatMemoryBuffer) (msgs : list ChatMessage) (h : Heap) : Heap :=
  foldl (λ h msg, put m msg h) h msgs.

(** The state after [_update_memory] when the context holds [m]. *)
Definition flushed (m : ChatMemoryBuffer) (s : State) : State :=
  mkState (put_all m (tool_msgs s) (heap s)) (Some m) [] (stream s) (runs s).

(** The Message the dispatcher produces for one regular request. *)
Definition regular_result (self : Supervisor) (tc : ToolSelection) : ChatMessage :=
  match tools_by_name self !! tool_name tc with
  | None =>
      mkChatMessage TOOL ("Tool " +:+ tool_name tc +:+ " does not exist") (call_kwargs tc)
  | Some t =>
      match call t (tool_kwargs tc) with
      | Ok output => mkChatMessage TOOL output (call_kwargs tc)
      | Raise e =>
          mkChatMessage TOOL ("Encountered error in tool call: " +:+ exn_str e)
                        (call_kwargs tc)
      end
  end.

(** A result Message is correlated to a request when it is a tool Message
    that carries the call id and the target name of the request. *)
Definition correlated (tc : ToolSelection) (msg : ChatMessage) : Prop :=
  role msg = TOOL
  ∧ additional_kwargs msg !! "tool_call_id" = Some (tool_id tc)
  ∧ additional_kwargs msg !! "name" = Some (tool_name tc).

(** The requests of a turn that are not handoffs. *)
Definition regular_of (self : Supervisor) (tool_calls : list ToolSelection)
    : list ToolSelection :=
  filter (λ tc, ¬ is_handoff self tc) tool_calls.

(** The state when the handoffs of the turn are looked at: the pending
    batch holds the results of the regular requests. *)
Definition dispatched (self : Supervisor) (tool_calls : list ToolSelection) (s : State) : State :=
  set_tool_msgs (regular_result self <$> regular_of self tool_calls) s.

(** A step is quiet when it leaves the trace of the sub-agent runs as it
    found it, whether it returns or raises. *)
Definition quiet {A} (c : M A) : Prop :=
  ∀ s, runs (c s).2 = runs s.

(** The earlier checks of [__init__] pass: the three assertions hold and
    the system prompt is accepted. *)
Definition checks_pass (a : SupervisorArgs) : Prop :=
  is_function_calling_model (arg_llm a) = true
  ∧ arg_output_mode a ∈ ["full_history"; "last_message"]
  ∧ 0 < length (arg_agents a) + length (arg_tools a)
  ∧ is_ok (init_system_prompt (arg_system_prompt a)) = true.

(** The Message that [prepare_chat_history] puts for [ev.input]: none for
    [None] and for the empty string. *)
Definition user_turn (input : option string) : list ChatMessage :=
  match input with
  | Some text => if bool_decide (text = "") then [] else [mkChatMessage USER text ∅]
  | None => []
  end.

(** What [_get_llm_response] writes to the stream for a response. *)
Definition delta_text (response : ChatResponse) : string :=
  default "" (delta response).

(** The errors of the three assertions of [__init__]. *)
Definition not_function_calling : exn :=
  AssertionError "Supervisor only supports function calling LLMs".
Definition bad_output_mode : exn :=
  AssertionError "output_mode must be either 'full_history' or 'last_message'".
Definition nothing_registered : exn :=
  AssertionError "At least one agent or tool must be provided".
Definition parameterized_generic : exn :=
  TypeError "isinstance() argument 2 cannot be a parameterized generic".
Definition no_memory : exn :=
  ValueError "Key 'memory' not found in Context".

(** The state in which a sub-agent hands control back: its run is in the
    trace and the heap is the one it leaves. *)
Definition started (token_window : list ChatMessage → list ChatMessage)
    (agent : Agent) (m : ChatMemoryBuffer) (h : Heap) (s : State) : State :=
  set_heap h
    (add_run {| run_agent := agent_name agent;
                run_chat_history := token_window (get_all (heap s) m);
                run_memory := get_all (heap s) m |} s).

(** The handoff-back Messages of a turn, none when they are switched off. *)
Definition handoff_back_of
    (create_handoff_back_messages : string → string → list ChatMessage)
    (self : Supervisor) (agent : Agent) : list ChatMessage :=
  if add_handoff_back_messages self
  then create_handoff_back_messages (agent_name agent) (name self)
  else [].

(** The response that lacks a message. *)
Definition no_response : exn :=
  AttributeError "'NoneType' object has no attribute 'message'".
Definition no_last_message : exn :=
  IndexError "list index out of range".

(** The pending batch when the one handoff of a turn is transferred: the
    results of the regular requests and the Message of the transfer. *)
Definition transfer_batch (self : Supervisor) (tool_calls : list ToolSelection)
    (agent : Agent) (handoff : ToolSelection) : list ChatMessage :=
  (regular_result self <$> regular_of self tool_calls)
  ++ [transfer_message agent handoff].

(** The state in which the sub-agent of a turn is started: the batch is in
    the memory. *)
Definition transferred (self : Supervisor) (tool_calls : list ToolSelection)
    (agent : Agent) (handoff : ToolSelection) (m : ChatMemoryBuffer)
    (s : State) : State :=
  flushed m (set_tool_msgs (transfer_batch self tool_calls agent handoff) s).

(** ** A concrete instance

    An instance of what [handoff.py] exports, and a small cast of tools and
    agents, for running the workflow on concrete turns. *)
Module Scenario.

Definition lower_char (c : Ascii.ascii) : Ascii.ascii :=
  let n := Ascii.nat_of_ascii c in
  if bool_decide (65 ≤ n ≤ 90) then Ascii.ascii_of_nat (n + 32)
  else if bool_decide (n = 32) then Ascii.ascii_of_nat 95 else c.

Fixpoint normalize (s : string) : string :=
  match s with
  | EmptyString => EmptyString
  | String c s' => String (lower_char c) (normalize s')
  end.

(** The handoff tool of an agent is named [transfer_to_] followed by the
    normalized name of the agent, the key under which [_setup_agents]
    registers the agent and which [_process_agent_handoff] looks up. *)
Definition handoff_tool (agent : Agent) : BaseTool :=
  {| metadata_name := "transfer_to_" +:+ normalize (agent_name agent);
     call := λ _, Ok ("Successfully transferred to " +:+ agent_name agent) |}.

Definition handoff_back (agent_name supervisor_name : string) : list ChatMessage :=
  [ mkChatMessage TOOL ("Transferring back to " +:+ supervisor_name) ∅;
    mkChatMessage TOOL
      ("Successfully transferred back to " +:+ supervisor_name +:+ " from " +:+ agent_name) ∅ ].

(** No token limit: [memory.get()] is the whole store. *)
Definition whole (l : list ChatMessage) : list ChatMessage := l.

Definition a_llm : FunctionCallingLLM :=
  {| is_function_calling_model := true;
     astream_chat_with_tools := λ _ _, [];
     get_tool_calls_from_response := λ _, [] |}.

Definition finding1 : ChatMessage := mkChatMessage ASSISTANT "searching" ∅.
Definition finding2 : ChatMessage := mkChatMessage ASSISTANT "X is 42" ∅.

(** A run that appends two turns to the memory of its context. *)
Definition two_turns (memory : ChatMemoryBuffer) (chat_history : list ChatMessage)
    (h : Heap) : result ChatMemoryBuffer * Heap :=
  (Ok memory, put memory finding2 (put memory finding1 h)).

(** A run that leaves the memory as it is. *)
Definition no_turn (memory : ChatMemoryBuffer) (chat_history : list ChatMessage)
    (h : Heap) : result ChatMemoryBuffer * Heap :=
  (Ok memory, h).

Definition researcher : Agent :=
  {| agent_name := "researcher"; agent_run := two_turns |}.

(** An agent whose name is not in normal form. *)
Definition math_expert : Agent :=
  {| agent_name := "Math Expert"; agent_run := no_turn |}.

(** An agent whose name has the normal form of [researcher]'s. *)
Definition researcher_twin : Agent :=
  {| agent_name := "Researcher"; agent_run := no_turn |}.

Definition add_tool : BaseTool :=
  {| metadata_name := "add"; call := λ _, Ok "3" |}.
Definition add_tool' : BaseTool :=
  {| metadata_name := "add"; call := λ _, Ok "4" |}.
Definition failing_tool : BaseTool :=
  {| metadata_name := "divide"; call := λ _, Raise (RuntimeError "division by zero") |}.
(** A tool that takes the name of the handoff tool of [researcher]. *)
Definition shadow_tool : BaseTool :=
  {| metadata_name := "transfer_to_researcher"; call := λ _, Ok "shadow" |}.

Definition args (agents : list Agent) (tools : list BaseTool)
    (sp : SystemPromptArg) (mode : string) : SupervisorArgs :=
  {| arg_llm := a_llm; arg_agents := agents; arg_tools := tools;
     arg_name := "supervisor"; arg_system_prompt := sp;
     arg_add_handoff_back_messages := true; arg_output_mode := mode |}.

Definition init := Supervisor_init normalize handoff_tool.

Definition ask : ChatMessage := mkChatMessage USER "Find X" ∅.
Definition plan : ChatMessage := mkChatMessage ASSISTANT "" ∅.

Definition memory0 : ChatMemoryBuffer :=
  {| chat_store := 0; chat_store_key := "chat_history" |}.

(** The supervisor has seen the user's request and the model's reply. *)
Definition s0 : State :=
  {| heap := {[ 0 := {[ "chat_history" := [ask; plan] ]} ]};
     ctx_memory := Some memory0;
     tool_msgs := []; stream := []; runs := [] |}.

Definition handoff_call : ToolSelection :=
  {| tool_id := "call_1"; tool_name := "transfer_to_researcher";
     tool_kwargs := {[ "task" := "find X"; "reason" := "needs research" ]} |}.

Definition handoff_call2 : ToolSelection :=
  {| tool_id := "call_2"; tool_name := "transfer_to_math_expert";
     tool_kwargs := ∅ |}.

Definition add_call : ToolSelection :=
  {| tool_id := "call_3"; tool_name := "add";
     tool_kwargs := {[ "a" := "1"; "b" := "2" ]} |}.

Definition email_call : ToolSelection :=
  {| tool_id := "call_4"; tool_name := "send_email"; tool_kwargs := ∅ |}.

Definition divide_call : ToolSelection :=
  {| tool_id := "call_5"; tool_name := "divide"; tool_kwargs := ∅ |}.

(** The Supervisor that [__init__] builds from [researcher] and
    [math_expert] with the tools [add] and [divide]. *)
Definition team (mode : string) : Supervisor :=
  {| name := "supervisor";
     llm := a_llm;
     system_prompt := [];
     add_handoff_back_messages := true;
     output_mode := mode;
     tools := [add_tool; failing_tool; handoff_tool researcher; handoff_tool math_expert];
     agents := [researcher; math_expert];
     agent_names := {[ "math_expert"; "researcher" ]};
     agents_by_name := {[ "researcher" := researcher; "math_expert" := math_expert ]};
     agent_tools := [handoff_tool researcher; handoff_tool math_expert];
     tools_by_name :=
       {[ "add" := add_tool; "divide" := failing_tool;
          "transfer_to_researcher" := handoff_tool researcher;
          "transfer_to_math_expert" := handoff_tool math_expert ]};
     agents_by_tool_name :=
       {[ "transfer_to_researcher" := handoff_tool researcher;
          "transfer_to_math_expert" := handoff_tool math_expert ]} |}.

Definition turn (self : Supervisor) (tool_calls : list ToolSelection) (s : State)
    : result Event * State :=
  handle_tool_calls handoff_back whole self tool_calls s.

(** A handoff tool named after the normal form of the agent's name. *)
Definition normalized_handoff_tool (agent : Agent) : BaseTool :=
  {| metadata_name := "transfer_to_" +:+ normalize (agent_name agent);
     call := λ _, Ok ("Successfully transferred to " +:+ agent_name agent) |}.

(** A state whose context holds no memory yet. *)
Definition s_new : State :=
  {| heap := ∅; ctx_memory := None; tool_msgs := []; stream := []; runs := [] |}.

(** A state with a pending batch. *)
Definition s_pending : State := set_tool_msgs [finding1; finding2] s0.

(** A model that streams a reply in two parts and asks for [add]. *)
Definition part1 : ChatResponse :=
  {| message := mkChatMessage ASSISTANT "I will" ∅; delta := Some "I will" |}.
Definition part2 : ChatResponse :=
  {| message := mkChatMessage ASSISTANT "I will add" ∅; delta := None |}.
Definition caller_llm : FunctionCallingLLM :=
  {| is_function_calling_model := true;
     astream_chat_with_tools := λ _ _, [part1; part2];
     get_tool_calls_from_response := λ _, [add_call] |}.

(** [team] with another model. *)
Definition team_with (l : FunctionCallingLLM) (mode : string) : Supervisor :=
  mkSupervisor "supervisor" l [system_message "Be brief."] true mode
    (tools (team mode)) (agents (team mode)) (agent_names (team mode))
    (agents_by_name (team mode)) (agent_tools (team mode))
    (tools_by_name (team mode)) (agents_by_tool_name (team mode)).

(** An agent whose run fails. *)
Definition failing_run (memory : ChatMemoryBuffer) (chat_history : list ChatMessage)
    (h : Heap) : result ChatMemoryBuffer * Heap :=
  (Raise (RuntimeError "agent failed"), h).
Definition broken_agent : Agent :=
  {| agent_name := "broken"; agent_run := failing_run |}.

(** An agent that hands back a memory over an empty store. *)
Definition blank_run (memory : ChatMemoryBuffer) (chat_history : list ChatMessage)
    (h : Heap) : result ChatMemoryBuffer * Heap :=
  (Ok {| chat_store := 1; chat_store_key := "chat_history" |}, <[1 := ∅]> h).
Definition blank_agent : Agent :=
  {| agent_name := "blank"; agent_run := blank_run |}.

(** The Supervisor that [__init__] builds when the handoff tools are named
    after the normal forms. *)
Definition team_normalized : Supervisor :=
  {| name := "supervisor";
     llm := a_llm;
     system_prompt := [];
     add_handoff_back_messages := true;
     output_mode := "full_history";
     tools := [add_tool; normalized_handoff_tool researcher;
               normalized_handoff_tool math_expert];
     agents := [researcher; math_expert];
     agent_names := {[ "math_expert"; "researcher" ]};
     agents_by_name := {[ "researcher" := researcher; "math_expert" := math_expert ]};
     agent_tools := [normalized_handoff_tool researcher;
                     normalized_handoff_tool math_expert];
     tools_by_name :=
       {[ "add" := add_tool;
          "transfer_to_researcher" := normalized_handoff_tool researcher;
          "transfer_to_math_expert" := normalized_handoff_tool math_expert ]};
     agents_by_tool_name :=
       {[ "transfer_to_researcher" := normalized_handoff_tool researcher;
          "transfer_to_math_expert" := normalized_handoff_tool math_expert ]} |}.

Definition handoff_call3 : ToolSelection :=
  {| tool_id := "call_6"; tool_name := "transfer_to_math_expert";
     tool_kwargs := ∅ |}.

(** The Supervisor that [__init__] builds from one agent and no tool. *)
Definition solo (agent : Agent) (mode : string) : Supervisor :=
  {| name := "supervisor";
     llm := a_llm;
     system_prompt := [];
     add_handoff_back_messages := true;
     output_mode := mode;
     tools := [handoff_tool agent];
     agents := [agent];
     agent_names := {[ normalize (agent_name agent) ]} ∪ ∅;
     agents_by_name := <[ normalize (agent_name agent) := agent ]> ∅;
     agent_tools := [handoff_tool agent];
     tools_by_name := <[ metadata_name (handoff_tool agent) := handoff_tool agent ]> ∅;
     agents_by_tool_name :=
       <[ metadata_name (handoff_tool agent) := handoff_tool agent ]> ∅ |}.

(** The Supervisor that [__init__] builds from [researcher] and a tool that
    bears the name of its handoff tool. *)
Definition shadowed : Supervisor :=
  {| name := "supervisor";
     llm := a_llm;
     system_prompt := [];
     add_handoff_back_messages := true;
     output_mode := "full_history";
     tools := [shadow_tool; handoff_tool researcher];
     agents := [researcher];
     agent_names := {[ "researcher" ]};
     agents_by_name := {[ "researcher" := researcher ]};
     agent_tools := [handoff_tool researcher];
     tools_by_name := {[ "transfer_to_researcher" := handoff_tool researcher ]};
     agents_by_tool_name := {[ "transfer_to_researcher" := handoff_tool researcher ]} |}.

Definition broken_call : ToolSelection :=
  {| tool_id := "call_7"; tool_name := "transfer_to_broken"; tool_kwargs := ∅ |}.


Definition blank_call : ToolSelection :=
  {| tool_id := "call_8"; tool_name := "transfer_to_blank"; tool_kwargs := ∅ |}.

(** The heap that [researcher] leaves when it is started by [handoff_call]. *)
Definition researched (mode : string) : Heap :=
  put memory0 finding2
    (put memory0 finding1
       (put_all memory0
          (transfer_batch (team mode) [handoff_call] researcher handoff_call)
          (heap s0))).




End Scenario.

(** * Properties *)

(** ** The chat store *)

Lemma get_all_put (h : Heap) (m : ChatMemoryBuffer) (msg : ChatMessage) :
  is_Some (h !! chat_store m) →
  get_all (put m msg h) m = get_all h m ++ [msg].
Proof.
  intros [st Hst]. unfold get_all, put.
  rewrite lookup_alter_eq, Hst. simpl.
  unfold add_message, get_messages. by rewrite lookup_insert_eq.
Qed.

Lemma put_is_Some (h : Heap) (m : ChatMemoryBuffer) (msg : ChatMessage) (l : loc) :
  is_Some (put m msg h !! l) ↔ is_Some (h !! l).
Proof.
  unfold put. destruct (decide (chat_store m = l)) as [<-|Hne].
  - rewrite lookup_alter_eq. by rewrite fmap_is_Some.
  - by rewrite lookup_alter_ne.
Qed.


Lemma put_all_is_Some (m : ChatMemoryBuffer) (msgs : list ChatMessage) (h : Heap) (l : loc) :
  is_Some (put_all m msgs h !! l) ↔ is_Some (h !! l).
Proof.
  unfold put_all. revert h.
  induction msgs as [|msg msgs IH]; intros h; simpl; [done|].
  rewrite IH. apply put_is_Some.
Qed.

Lemma get_all_put_all (m : ChatMemoryBuffer) (msgs : list ChatMessage) (h : Heap) :
  is_Some (h !! chat_store m) →
  get_all (put_all m msgs h) m = get_all h m ++ msgs.
Proof.
  unfold put_all. revert h.
  induction msgs as [|msg msgs IH]; intros h Hs; simpl.
  - by rewrite app_nil_r.
  - rewrite IH by (by apply put_is_Some).
    rewrite get_all_put by done. by rewrite <- app_assoc.
Qed.

(** A shallow copy reads and writes the store of the original. *)
Lemma get_all_model_copy (h : Heap) (m : ChatMemoryBuffer) :
  get_all h (model_copy m) = get_all h m.
Proof. done. Qed.

Lemma put_model_copy (h : Heap) (m : ChatMemoryBuffer) (msg : ChatMessage) :
  put (model_copy m) msg h = put m msg h.
Proof. done. Qed.

(** ** The loops *)

Lemma for_each_put (m : ChatMemoryBuffer) (msgs : list ChatMessage) (s : State) :
  for_each msgs (memory_put m) s = (Ok tt, set_heap (put_all m msgs (heap s)) s).
Proof.
  revert s. induction msgs as [|msg msgs IH]; intros s; simpl.
  - by destruct s.
  - unfold mbind, M_bind. simpl. rewrite IH. by destruct s.
Qed.

Lemma for_each_append {A} (f : A → ChatMessage) (l : list A) (s : State) :
  for_each l (λ x, tool_msgs_append (f x)) s
  = (Ok tt, set_tool_msgs (tool_msgs s ++ (f <$> l)) s).
Proof.
  revert s. induction l as [|x l IH]; intros s; simpl.
  - rewrite app_nil_r. by destruct s.
  - unfold mbind, M_bind. simpl. rewrite IH. destruct s; simpl.
    unfold set_tool_msgs; simpl. by rewrite <- app_assoc.
Qed.


Lemma _update_memory_flushed (m : ChatMemoryBuffer) (s : State) :
  ctx_memory s = Some m →
  _update_memory s = (Ok tt, flushed m s).
Proof.
  intros Hm. unfold _update_memory, mbind, M_bind, gets. simpl.
  case_bool_decide as Hnil.
  - destruct s; simpl in *. subst. done.
  - unfold ctx_get_memory. rewrite Hm. rewrite for_each_put. by destruct s.
Qed.

(** ** The dispatcher *)

Lemma process_regular_tool_result (self : Supervisor) (tc : ToolSelection) (s : State) :
  process_regular_tool self tc s
  = (Ok tt, set_tool_msgs (tool_msgs s ++ [regular_result self tc]) s).
Proof.
  unfold process_regular_tool, regular_result.
  destruct (tools_by_name self !! tool_name tc) as [t|]; [|done].
  unfold try_except, mbind, M_bind.
  by destruct (call t (tool_kwargs tc)).
Qed.

Lemma _process_regular_tools_results (self : Supervisor)
    (regular_tools : list ToolSelection) (s : State) :
  _process_regular_tools self regular_tools s
  = (Ok tt, set_tool_msgs (tool_msgs s ++ (regular_result self <$> regular_tools)) s).
Proof.
  unfold _process_regular_tools. revert s.
  induction regular_tools as [|tc l IH]; intros s; simpl.
  - rewrite app_nil_r. by destruct s.
  - unfold mbind, M_bind. rewrite process_regular_tool_result, IH.
    destruct s; unfold set_tool_msgs; simpl. by rewrite <- app_assoc.
Qed.

Lemma call_kwargs_correlated (tc : ToolSelection) (c : string) :
  correlated tc (mkChatMessage TOOL c (call_kwargs tc)).
Proof.
  unfold correlated, call_kwargs; simpl. split_and!; [done| |].
  - by rewrite lookup_insert_ne, lookup_insert_eq.
  - by rewrite lookup_insert_eq.
Qed.



(** On the tools of the main model, which raise instances of [Exception]
    only, the dispatcher returns on every list of requests, with one Message
    per request: the error of the unregistered name, the error of the
    exception that the tool raised, the content of the output otherwise. *)
Lemma dispatcher_contains_failures (self : Supervisor)
    (regular_tools : list ToolSelection) (s : State) :
  ∃ results : list ChatMessage,
    _process_regular_tools self regular_tools s
    = (Ok tt, set_tool_msgs (tool_msgs s ++ results) s)
    ∧ Forall2 (λ tc msg,
        match tools_by_name self !! tool_name tc with
        | None => content msg = "Tool " +:+ tool_name tc +:+ " does not exist"
        | Some t =>
            match call t (tool_kwargs tc) with
            | Raise e => content msg = "Encountered error in tool call: " +:+ exn_str e
            | Ok output => content msg = output
            end
        end) regular_tools results.
Proof.
  exists (regular_result self <$> regular_tools). split.
  - apply _process_regular_tools_results.
  - induction regular_tools as [|tc l IH]; simpl; constructor; [|exact IH].
    unfold regular_result.
    destruct (tools_by_name self !! tool_name tc) as [t|]; [|done].
    by destruct (call t (tool_kwargs tc)).
Qed.

(** ** Steps that start no sub-agent *)

Lemma bind_eq {A B} (c : M A) (k : A → M B) (s : State) :
  (c ≫= k) s
  = match c s with
    | (Ok a, s') => k a s'
    | (Raise e, s') => (Raise e, s')
    end.
Proof. done. Qed.

Create HintDb quiet discriminated.

Lemma quiet_bind {A B} (c : M A) (k : A → M B) :
  quiet c → (∀ a, quiet (k a)) → quiet (c ≫= k).
Proof.
  intros Hc Hk s. rewrite bind_eq. specialize (Hc s).
  destruct (c s) as [[a|e] s']; simpl in *; [|done].
  by rewrite Hk.
Qed.

Lemma quiet_ret {A} (a : A) : quiet (mret a : M A).
Proof. done. Qed.

Lemma quiet_raise {A} (e : exn) : quiet (raise e : M A).
Proof. done. Qed.

Lemma quiet_gets {A} (f : State → A) : quiet (gets f).
Proof. done. Qed.

Lemma quiet_modify (f : State → State) :
  (∀ s, runs (f s) = runs s) → quiet (modify f).
Proof. intros Hf s. apply Hf. Qed.

Lemma quiet_ctx_get_memory : quiet ctx_get_memory.
Proof. intros s. unfold ctx_get_memory. by destruct (ctx_memory s). Qed.

Lemma quiet_ctx_set_memory (m : ChatMemoryBuffer) : quiet (ctx_set_memory m).
Proof. done. Qed.

Lemma quiet_memory_put (m : ChatMemoryBuffer) (msg : ChatMessage) :
  quiet (memory_put m msg).
Proof. done. Qed.

Lemma quiet_tool_msgs_append (msg : ChatMessage) : quiet (tool_msgs_append msg).
Proof. done. Qed.

Lemma quiet_tool_msgs_extend (msgs : list ChatMessage) : quiet (tool_msgs_extend msgs).
Proof. done. Qed.

Lemma quiet_for_each {A} (l : list A) (body : A → M unit) :
  (∀ x, quiet (body x)) → quiet (for_each l body).
Proof.
  intros Hb. induction l as [|x l IH]; simpl; [done|].
  apply quiet_bind; auto.
Qed.

#[export] Hint Resolve quiet_bind quiet_ret quiet_raise quiet_gets
  quiet_ctx_get_memory quiet_ctx_set_memory quiet_memory_put
  quiet_tool_msgs_append quiet_tool_msgs_extend quiet_for_each : quiet.

Lemma quiet__update_memory : quiet _update_memory.
Proof.
  unfold _update_memory. apply quiet_bind; [auto with quiet|]. intros messages.
  case_bool_decide; [auto with quiet|].
  apply quiet_bind; [auto with quiet|]. intros memory.
  repeat (apply quiet_bind; [auto with quiet|intros _]); try done.
Qed.

Lemma quiet__get_input_event (token_window : list ChatMessage → list ChatMessage) :
  quiet (_get_input_event token_window).
Proof.
  unfold _get_input_event, memory_get.
  repeat (apply quiet_bind; [auto with quiet|intros ?]). auto with quiet.
Qed.

#[export] Hint Resolve quiet__update_memory quiet__get_input_event : quiet.

(** ** Splitting a turn *)

Lemma filter_not_in_filter {A} `{EqDecision A} (P : A → Prop)
    `{!∀ x, Decision (P x)} (l0 l : list A) :
  l ⊆ l0 →
  filter (λ x, x ∉ filter P l0) l = filter (λ x, ¬ P x) l.
Proof.
  induction l as [|x l IH]; intros Hsub; [done|].
  assert (x ∈ l0) as Hx by set_solver.
  assert (l ⊆ l0) as Hl by set_solver.
  rewrite !filter_cons, IH by done.
  destruct (decide (x ∉ filter P l0)) as [Hn|Hn], (decide (¬ P x)) as [HP|HP];
    try done.
  - exfalso. apply HP. intros HPx. apply Hn. by apply list_elem_of_filter.
  - exfalso. apply Hn. intros Hin. apply list_elem_of_filter in Hin. tauto.
Qed.

Lemma _split_tool_calls_spec (self : Supervisor) (tool_calls : list ToolSelection) :
  _split_tool_calls self tool_calls
  = (filter (is_handoff self) tool_calls, regular_of self tool_calls).
Proof.
  unfold _split_tool_calls, regular_of. f_equal.
  by apply filter_not_in_filter.
Qed.


Lemma handoff_kwargs_correlated (handoff : ToolSelection) (c : string) :
  correlated handoff (mkChatMessage TOOL c (handoff_kwargs handoff)).
Proof. apply call_kwargs_correlated. Qed.

Lemma multiple_handoffs_messages_correlated (names : list string)
    (l : list ToolSelection) :
  Forall2 (λ handoff msg,
      correlated handoff msg
      ∧ content msg
        = "Multiple agent handoff tools selected: " +:+ join ", " names
          +:+ " - please select only one.")
    l (multiple_handoffs_message names <$> l).
Proof.
  induction l as [|h l IH]; simpl; constructor; [|exact IH].
  split; [apply handoff_kwargs_correlated|done].
Qed.

Section Turn.

Context (create_handoff_back_messages : string → string → list ChatMessage)
        (token_window : list ChatMessage → list ChatMessage)
        (self : Supervisor).

Local Abbreviation handle := (handle_tool_calls create_handoff_back_messages token_window self).
Local Abbreviation handoffs_step :=
  (_process_agent_handoffs create_handoff_back_messages token_window self).

Lemma handle_tool_calls_unfold (tool_calls : list ToolSelection) (s : State) :
  handle tool_calls s
  = match handoffs_step (filter (is_handoff self) tool_calls)
                                  (dispatched self tool_calls s) with
    | (Ok _, s2) => (_update_memory ;; _get_input_event token_window) s2
    | (Raise e, s2) => (Raise e, s2)
    end.
Proof.
  unfold handle_tool_calls. rewrite _split_tool_calls_spec.
  unfold mbind at 1. unfold M_bind at 1. simpl.
  unfold mbind at 1. unfold M_bind at 1.
  rewrite _process_regular_tools_results. simpl.
  unfold mbind at 1. unfold M_bind at 1.
  unfold dispatched. by destruct s.
Qed.

(** The end of a turn, from a state whose context holds [m]. *)
Lemma end_of_turn (m : ChatMemoryBuffer) (s : State) :
  ctx_memory s = Some m →
  (_update_memory ;; _get_input_event token_window) s
  = (Ok (InputEvent (token_window (get_all (heap (flushed m s)) m))), flushed m s).
Proof.
  intros Hm. unfold mbind at 1. unfold M_bind at 1.
  rewrite (_update_memory_flushed m) by done.
  unfold _get_input_event, mbind, M_bind, ctx_get_memory. done.
Qed.


Lemma handle_tool_calls_runs (tool_calls : list ToolSelection) (s : State) :
  runs (handle tool_calls s).2
  = runs (handoffs_step (filter (is_handoff self) tool_calls)
                                  (dispatched self tool_calls s)).2.
Proof.
  rewrite handle_tool_calls_unfold.
  destruct (handoffs_step _ _) as [[[]|e] s2]; [|done].
  assert (quiet (_update_memory ;; _get_input_event token_window)) as Hq
    by auto with quiet.
  apply Hq.
Qed.

(** C5: when two or more requests of a turn are handoffs, no sub-agent
    runs, and after the results of the regular requests the memory receives
    one Message per requested handoff, in order, each carrying the call id
    of its handoff and saying that multiple handoff tools were selected and
    only one is to be selected. *)
Theorem multiple_handoffs_none_runs
    (tool_calls : list ToolSelection) (s : State) (m : ChatMemoryBuffer) :
  2 ≤ length (filter (is_handoff self) tool_calls) →
  ctx_memory s = Some m →
  is_Some (heap s !! chat_store m) →
  ∃ (errors : list ChatMessage) (s' : State),
    handle tool_calls s
    = (Ok (InputEvent (token_window (get_all (heap s') m))), s')
    ∧ runs s' = runs s
    ∧ get_all (heap s') m
      = get_all (heap s) m
        ++ (regular_result self <$> regular_of self tool_calls) ++ errors
    ∧ Forall2 (λ handoff msg,
        correlated handoff msg
        ∧ content msg
          = "Multiple agent handoff tools selected: "
            +:+ join ", " (tool_name <$> filter (is_handoff self) tool_calls)
            +:+ " - please select only one.")
        (filter (is_handoff self) tool_calls) errors.
Proof.
  intros Hlen Hm Hst.
  set (handoffs := filter (is_handoff self) tool_calls) in *.
  set (errors := multiple_handoffs_message (tool_name <$> handoffs) <$> handoffs).
  exists errors.
  exists (flushed m (set_tool_msgs
            ((regular_result self <$> regular_of self tool_calls) ++ errors) s)).
  rewrite handle_tool_calls_unfold. fold handoffs.
  unfold _process_agent_handoffs.
  rewrite bool_decide_eq_true_2 by lia.
  rewrite for_each_append. fold errors. simpl.
  rewrite (end_of_turn m) by done.
  split_and!; [by destruct s|done| |].
  - simpl. by rewrite get_all_put_all.
  - apply multiple_handoffs_messages_correlated.
Qed.

(** What [_run_agent] adds to the trace: one run, on the memory as the
    context holds it when [_run_agent] starts. *)
Lemma _run_agent_runs (agent : Agent) (s : State) (m : ChatMemoryBuffer) :
  ctx_memory s = Some m →
  runs (_run_agent token_window self agent s).2
  = runs s ++ [ {| run_agent := agent_name agent;
                   run_chat_history := token_window (get_all (heap s) m);
                   run_memory := get_all (heap s) m |} ].
Proof.
  intros Hm. unfold _run_agent.
  rewrite bind_eq. unfold ctx_get_memory. rewrite Hm.
  rewrite bind_eq. unfold memory_get, gets.
  rewrite bind_eq. unfold call_agent. simpl.
  destruct (agent_run agent (model_copy m) _ (heap s)) as [[memo|e] h]; [|done].
  case_bool_decide; [done|].
  case_bool_decide; [|done].
  rewrite bind_eq. unfold memory_get_all, gets.
  by destruct (last _).
Qed.

End Turn.

(** ** Construction *)

Section Construction.

Context (_normalize_agent_name : string → string)
        (create_handoff_tool : Agent → BaseTool).

Local Abbreviation normalized l := (_normalize_agent_name ∘ agent_name <$> l).
Local Abbreviation setup_from := (_setup_agents_from _normalize_agent_name).
Local Abbreviation construct :=
  (Supervisor_init _normalize_agent_name create_handoff_tool).

Lemma _setup_agents_from_ok (l : list Agent) (names : gset string)
    (by_name : gmap string Agent) :
  is_ok (setup_from l names by_name) = true
  ↔ NoDup (normalized l) ∧ ∀ n, n ∈ normalized l → by_name !! n = None.
Proof.
  revert names by_name. induction l as [|agent l IH]; intros names by_name; simpl.
  - split; [|done]. intros _. split; [constructor|]. intros n Hn. by inversion Hn.
  - destruct (decide (is_Some (by_name !! _normalize_agent_name (agent_name agent))))
      as [Hs|Hs]; simpl.
    + split; [done|]. intros [_ Hnone].
      rewrite Hnone in Hs by apply list_elem_of_here. by destruct Hs.
    + rewrite IH, NoDup_cons. split.
      * intros [Hnd Hnone]. split_and!; [|done|].
        -- intros Hin. specialize (Hnone _ Hin). by rewrite lookup_insert_eq in Hnone.
        -- intros n Hn. apply elem_of_cons in Hn as [->|Hn].
           ++ by apply eq_None_not_Some.
           ++ specialize (Hnone _ Hn). by apply lookup_insert_None in Hnone as [? _].
      * intros [[Hnin Hnd] Hnone]. split; [done|]. intros n Hn.
        apply lookup_insert_None.
        split; [by apply Hnone, list_elem_of_further|].
        intros <-. done.
Qed.

Lemma _setup_agents_from_error (l : list Agent) (names : gset string)
    (by_name : gmap string Agent) (e : exn) :
  setup_from l names by_name = Raise e →
  ∃ n, n ∈ normalized l ∧ e = duplicate_agent_error n.
Proof.
  revert names by_name. induction l as [|agent l IH]; intros names by_name; simpl.
  - done.
  - destruct (decide _) as [Hs|Hs].
    + intros [= <-]. eexists. split; [apply list_elem_of_here|done].
    + intros Hr. destruct (IH _ _ Hr) as (n & Hn & ->). exists n.
      split; [by apply list_elem_of_further|done].
Qed.

Lemma by_tool_name_snoc (l : list BaseTool) (t : BaseTool) :
  by_tool_name (l ++ [t]) = <[metadata_name t := t]> (by_tool_name l).
Proof. unfold by_tool_name. by rewrite foldl_app. Qed.

(** A name resolves to the last tool that bears it. *)
Lemma by_tool_name_lookup (l : list BaseTool) (n : string) :
  by_tool_name l !! n = last (filter (λ t, metadata_name t = n) l).
Proof.
  induction l as [|t l IH] using rev_ind; [done|].
  rewrite by_tool_name_snoc, filter_app, filter_cons, filter_nil.
  destruct (decide (metadata_name t = n)) as [<-|Hne].
  - by rewrite lookup_insert_eq, last_snoc.
  - by rewrite lookup_insert_ne, app_nil_r.
Qed.

Lemma Supervisor_init_checked (a : SupervisorArgs) :
  checks_pass a →
  ∃ sp, init_system_prompt (arg_system_prompt a) = Ok sp
    ∧ construct a
      = '(names, by_name) ← _setup_agents _normalize_agent_name (arg_agents a);
        let agent_tools := create_handoff_tool <$> arg_agents a in
        let tools := arg_tools a ++ agent_tools in
        Ok {| name := arg_name a;
              llm := arg_llm a;
              system_prompt := sp;
              add_handoff_back_messages := arg_add_handoff_back_messages a;
              output_mode := arg_output_mode a;
              tools := tools;
              agents := arg_agents a;
              agent_names := names;
              agents_by_name := by_name;
              agent_tools := agent_tools;
              tools_by_name := by_tool_name tools;
              agents_by_tool_name := by_tool_name agent_tools |}.
Proof.
  intros (Hllm & Hmode & Hsome & Hsp).
  destruct (init_system_prompt (arg_system_prompt a)) as [sp|e] eqn:Esp; [|done].
  exists sp. split; [done|].
  unfold Supervisor_init. rewrite Hllm, Esp.
  rewrite bool_decide_eq_true_2 by done.
  rewrite bool_decide_eq_true_2 by done.
  done.
Qed.

(** Once the earlier checks of the constructor pass, two agents whose
    normalized names are equal make the construction fail with the duplicate
    agent name error; when the normalized agent names are pairwise distinct
    the construction succeeds whatever the names of the tools are. *)
Lemma only_agent_names_are_checked (a : SupervisorArgs) :
  checks_pass a →
  (∀ (i j : nat) (a1 a2 : Agent),
      i ≠ j →
      arg_agents a !! i = Some a1 →
      arg_agents a !! j = Some a2 →
      _normalize_agent_name (agent_name a1) = _normalize_agent_name (agent_name a2) →
      ∃ n, n ∈ normalized (arg_agents a)
           ∧ construct a = Raise (duplicate_agent_error n))
  ∧ (NoDup (normalized (arg_agents a)) →
      ∃ self, construct a = Ok self
        ∧ ∀ n, tools_by_name self !! n
               = last (filter (λ t, metadata_name t = n)
                              (arg_tools a ++ (create_handoff_tool <$> arg_agents a)))).
Proof.
  intros Hchecks.
  destruct (Supervisor_init_checked a Hchecks) as (sp & _ & ->).
  unfold _setup_agents.
  pose proof (_setup_agents_from_ok (arg_agents a) ∅ ∅) as Hok.
  destruct (setup_from (arg_agents a) ∅ ∅) as [[names by_name]|e] eqn:E.
  - simpl in Hok. split.
    + intros i j a1 a2 Hij H1 H2 Heq. exfalso.
      destruct Hok as [[Hnd _] _]; [done|]. apply Hij.
      apply (NoDup_lookup _ i j (_normalize_agent_name (agent_name a1)) Hnd).
      * by rewrite list_lookup_fmap, H1.
      * rewrite list_lookup_fmap, H2. simpl. by rewrite Heq.
    + intros _. eexists. split; [done|]. intros n. apply by_tool_name_lookup.
  - destruct (_setup_agents_from_error _ _ _ _ E) as (n & Hn & ->). split.
    + intros. by exists n.
    + intros Hnd. simpl in Hok. destruct Hok as [_ Hok].
      discriminate Hok. split; [done|]. intros ? _. apply lookup_empty.
Qed.

End Construction.

(** ** Concrete turns *)

Import Scenario.

(** Settles a decidable proposition on closed terms by evaluating its
    decision procedure. *)
Ltac decide_by_computation :=
  apply (bool_decide_unpack _); vm_compute; exact I.

Lemma team_built :
  init (args [researcher; math_expert] [add_tool; failing_tool] SPNone "full_history")
  = Ok (team "full_history")
  ∧ init (args [researcher; math_expert] [add_tool; failing_tool] SPNone "last_message")
    = Ok (team "last_message").
Proof.
  unfold team, researcher, math_expert.
  generalize two_turns, no_turn. intros run1 run2.
  split; vm_compute; reflexivity.
Qed.

(** The scenario of the specification: a call to [send_email] when no such
    tool is registered; and a tool that raises. *)
Example send_email_scenario :
  content <$> tool_msgs
    (_process_regular_tools (team "full_history") [email_call; divide_call] s0).2
  = ["Tool send_email does not exist";
     "Encountered error in tool call: division by zero"].
Proof. vm_compute. reflexivity. Qed.

(** Two tools named [add], and a tool that bears the name of the handoff
    tool of an agent, are accepted. *)
Lemma duplicate_tool_names_accepted :
  (metadata_name add_tool = metadata_name add_tool'
   ∧ is_ok (init (args [] [add_tool; add_tool'] SPNone "full_history")) = true)
  ∧ (metadata_name shadow_tool = metadata_name (handoff_tool researcher)
     ∧ is_ok (init (args [researcher] [shadow_tool] SPNone "full_history")) = true).
Proof. split; split; vm_compute; reflexivity. Qed.

Lemma only_agent_names_are_checked_witness :
  ∃ n, n ∈ (normalize ∘ agent_name <$> [researcher; researcher_twin])
       ∧ init (args [researcher; researcher_twin] [add_tool] SPNone "full_history")
         = Raise (duplicate_agent_error n).
Proof.
  destruct (only_agent_names_are_checked normalize handoff_tool
              (args [researcher; researcher_twin] [add_tool] SPNone "full_history"))
    as [Hdup _].
  - split_and!; [reflexivity|apply list_elem_of_here|simpl; lia|reflexivity].
  - apply (Hdup 0 1 researcher researcher_twin);
      [lia|reflexivity|reflexivity|vm_compute; reflexivity].
Defined.


Lemma multiple_handoffs_none_runs_witness :
  ∃ (errors : list ChatMessage) (s' : State),
    turn (team "full_history") [handoff_call; add_call; handoff_call2] s0
    = (Ok (InputEvent (whole (get_all (heap s') memory0))), s')
    ∧ runs s' = runs s0
    ∧ get_all (heap s') memory0
      = get_all (heap s0) memory0
        ++ (regular_result (team "full_history")
              <$> regular_of (team "full_history") [handoff_call; add_call; handoff_call2])
        ++ errors
    ∧ Forall2 (λ handoff msg,
        correlated handoff msg
        ∧ content msg
          = "Multiple agent handoff tools selected: "
            +:+ join ", " (tool_name <$> filter (is_handoff (team "full_history"))
                                           [handoff_call; add_call; handoff_call2])
            +:+ " - please select only one.")
        (filter (is_handoff (team "full_history")) [handoff_call; add_call; handoff_call2])
        errors.
Proof.
  apply (multiple_handoffs_none_runs handoff_back whole
           (team "full_history") [handoff_call; add_call; handoff_call2] s0 memory0).
  - vm_compute. lia.
  - reflexivity.
  - decide_by_computation.
Defined.

(** ** The memory handed to a sub-agent *)

(** What is put through the copy is read through the original. *)
Lemma model_copy_put_visible (h : Heap) (m : ChatMemoryBuffer) (msg : ChatMessage) :
  is_Some (h !! chat_store m) →
  get_all (put (model_copy m) msg h) m = get_all h m ++ [msg].
Proof. intros Hs. rewrite put_model_copy. by apply get_all_put. Qed.

(** C1 on a concrete handoff: the sub-agent [researcher] appends two turns
    to the copy it was handed; when its run returns, and before anything is
    merged back, the memory of the supervisor already holds both. *)
Theorem sub_agent_turns_reach_supervisor_memory :
  let copy := model_copy memory0 in
  get_all (heap s0) memory0 = [ask; plan]
  ∧ get_all (put copy finding1 (heap s0)) memory0 = [ask; plan; finding1]
  ∧ get_all (heap (call_agent researcher copy (whole [ask; plan]) s0).2) memory0
    = [ask; plan; finding1; finding2].
Proof. split_and!; vm_compute; reflexivity. Qed.

(** C2 on a concrete handoff under [full_history]: no system prompt was
    added for the sub-agent, and the row that is deleted is the first turn
    of the conversation, the request of the user. *)
Theorem full_history_deletes_first_turn :
  get_all (heap s0) memory0 = [ask; plan]
  ∧ get_all (heap (turn (team "full_history") [handoff_call] s0).2) memory0
    = [plan; transfer_message researcher handoff_call; finding1; finding2]
      ++ handoff_back "researcher" "supervisor".
Proof. split; vm_compute; reflexivity. Qed.

(** C7 on a concrete handoff under [last_message]: the memory of the
    supervisor keeps both turns of the sub-agent and receives the last one a
    second time; it grows by three Messages and the two handoff-back
    Messages. *)
Theorem last_message_keeps_intermediate_turns :
  get_all (heap s0) memory0 = [ask; plan]
  ∧ get_all (heap (turn (team "last_message") [handoff_call] s0).2) memory0
    = [ask; plan; transfer_message researcher handoff_call;
       finding1; finding2; finding2]
      ++ handoff_back "researcher" "supervisor".
Proof. split; vm_compute; reflexivity. Qed.

(** ** The system prompt *)

(** Every value that is true and is not a [str] reaches
    [isinstance(system_prompt, list[str])], which raises. *)
Lemma init_system_prompt_not_str (sp : SystemPromptArg) :
  truthy sp = true →
  isinstance_str sp = false →
  init_system_prompt sp
  = Raise (TypeError "isinstance() argument 2 cannot be a parameterized generic").
Proof. intros Ht Hs. unfold init_system_prompt. by rewrite Ht, Hs. Qed.

Lemma init_system_prompt_str (s : string) :
  s ≠ "" → init_system_prompt (SPStr s) = Ok [system_message s].
Proof.
  intros Hs. unfold init_system_prompt. simpl.
  destruct (String.eqb_spec s ""); done.
Qed.

Lemma init_system_prompt_none : init_system_prompt SPNone = Ok [].
Proof. done. Qed.

(** C10 on concrete arguments: a list of system Messages, a list of
    strings and a single [ChatMessage] each make the construction raise a
    [TypeError]. *)
Theorem system_prompt_lists_rejected :
  let e := TypeError "isinstance() argument 2 cannot be a parameterized generic" in
  init (args [researcher] [add_tool]
          (SPMessageList [system_message "Be brief."; system_message "Be kind."])
          "full_history") = Raise e
  ∧ init (args [researcher] [add_tool] (SPStrList ["Be brief."; "Be kind."])
            "full_history") = Raise e
  ∧ init (args [researcher] [add_tool] (SPMessage (system_message "Be brief."))
            "full_history") = Raise e.
Proof. split_and!; vm_compute; reflexivity. Qed.

(** The model is queried with the system prompt in front of the chat
    history, and the last response of the stream is returned. *)
Lemma _get_llm_response_query (self : Supervisor) (chat_history : list ChatMessage)
    (s : State) :
  (_get_llm_response self chat_history s).1
  = Ok (last (astream_chat_with_tools (llm self) (tools self)
                                      (system_prompt self ++ chat_history))).
Proof.
  unfold _get_llm_response. rewrite bind_eq.
  generalize (astream_chat_with_tools (llm self) (tools self)
                (system_prompt self ++ chat_history)).
  intros stream. generalize (last stream). intros r. revert s.
  induction stream as [|x l IH]; intros s; simpl; [done|].
  rewrite bind_eq. simpl. apply IH.
Qed.

(** * Further properties of the workflow *)

(** ** Construction *)

Lemma init_system_prompt_ok (sp : SystemPromptArg) :
  is_ok (init_system_prompt sp) = true
  ↔ truthy sp = false ∨ isinstance_str sp = true.
Proof.
  unfold init_system_prompt.
  destruct (truthy sp) eqn:Ht, (isinstance_str sp) eqn:Hs; simpl;
    split; auto; intros [?|?]; done.
Qed.

Lemma init_system_prompt_error (sp : SystemPromptArg) (e : exn) :
  init_system_prompt sp = Raise e → e = parameterized_generic.
Proof.
  unfold init_system_prompt.
  unfold parameterized_generic.
  destruct (truthy sp), (isinstance_str sp); simpl; try done.
  by intros [= <-].
Qed.

Section MoreConstruction.

Context (_normalize_agent_name : string → string)
        (create_handoff_tool : Agent → BaseTool).

Local Abbreviation normalized l := (_normalize_agent_name ∘ agent_name <$> l).
Local Abbreviation construct :=
  (Supervisor_init _normalize_agent_name create_handoff_tool).

Lemma _setup_agents_ok (l : list Agent) :
  is_ok (_setup_agents _normalize_agent_name l) = true ↔ NoDup (normalized l).
Proof.
  unfold _setup_agents. rewrite _setup_agents_from_ok. split; [by intros [? _]|].
  intros Hnd. split; [done|]. intros ? _. apply lookup_empty.
Qed.

(** Construction succeeds exactly when the model calls functions, the
    output mode is one of the two, something is registered, the system
    prompt is empty or a string, and no two agents share a normalized
    name. *)
Theorem construction_succeeds_iff (a : SupervisorArgs) :
  is_ok (construct a) = true
  ↔ is_function_calling_model (arg_llm a) = true
    ∧ arg_output_mode a ∈ ["full_history"; "last_message"]
    ∧ 0 < length (arg_agents a) + length (arg_tools a)
    ∧ (truthy (arg_system_prompt a) = false
       ∨ isinstance_str (arg_system_prompt a) = true)
    ∧ NoDup (normalized (arg_agents a)).
Proof.
  rewrite <- init_system_prompt_ok, <- _setup_agents_ok. split.
  - unfold Supervisor_init, assert, mbind, result_bind.
    destruct (is_function_calling_model (arg_llm a)); [|done].
    case_bool_decide; [|done].
    case_bool_decide; [|done].
    destruct (init_system_prompt (arg_system_prompt a)); [|done].
    destruct (_setup_agents _ (arg_agents a)) as [[??]|]; done.
  - intros (Hllm & Hmode & Hsome & Hsp & Hag).
    destruct (Supervisor_init_checked _normalize_agent_name create_handoff_tool a)
      as (sp & _ & ->); [done|].
    destruct (_setup_agents _ (arg_agents a)) as [[??]|]; done.
Qed.

(** The ways construction fails: one of the three assertions, the type
    error of the system prompt, or a duplicate normalized agent name. *)
Theorem construction_errors (a : SupervisorArgs) (e : exn) :
  construct a = Raise e →
  e = not_function_calling
  ∨ e = bad_output_mode
  ∨ e = nothing_registered
  ∨ e = parameterized_generic
  ∨ ∃ n, n ∈ normalized (arg_agents a) ∧ e = duplicate_agent_error n.
Proof.
  unfold Supervisor_init, assert, mbind, result_bind.
  destruct (is_function_calling_model (arg_llm a)); [|intros [= <-]; auto].
  case_bool_decide; [|intros [= <-]; auto].
  case_bool_decide; [|intros [= <-]; auto].
  destruct (init_system_prompt (arg_system_prompt a)) as [sp|e'] eqn:Esp.
  - unfold _setup_agents.
    destruct (_setup_agents_from _ (arg_agents a) ∅ ∅) as [[??]|e'] eqn:E; [done|].
    intros [= <-].
    apply _setup_agents_from_error in E. do 4 right. exact E.
  - intros [= <-]. apply init_system_prompt_error in Esp. auto.
Qed.

(** With nothing registered construction fails on an assertion whatever the
    other arguments are; when the model calls functions and the output mode
    is valid it is the assertion that asks for an agent or a tool. *)
Theorem empty_registry_rejected (a : SupervisorArgs) :
  arg_agents a = [] →
  arg_tools a = [] →
  (∃ msg, construct a = Raise (AssertionError msg))
  ∧ (is_function_calling_model (arg_llm a) = true →
     arg_output_mode a ∈ ["full_history"; "last_message"] →
     construct a = Raise nothing_registered).
Proof.
  intros Hag Htl. unfold Supervisor_init, assert, mbind, result_bind.
  rewrite Hag, Htl.
  destruct (is_function_calling_model (arg_llm a)); [|split; [by eexists|done]].
  case_bool_decide; [|split; [by eexists|done]].
  split; [by eexists|done].
Qed.

End MoreConstruction.

(** ** The registry *)

Lemma strip_prefix_app (p s : string) : strip_prefix p (p +:+ s) = Some s.
Proof.
  induction p as [|c p IH]; simpl; [done|].
  by rewrite Ascii.eqb_refl.
Qed.

Lemma removeprefix_app (p s : string) : removeprefix (p +:+ s) p = s.
Proof. unfold removeprefix. by rewrite strip_prefix_app. Qed.

Lemma by_tool_name_is_Some (l : list BaseTool) (n : string) :
  is_Some (by_tool_name l !! n) ↔ Exists (λ t, n = metadata_name t) l.
Proof.
  rewrite by_tool_name_lookup, last_is_Some, Exists_exists. split.
  - intros Hne. destruct (filter _ l) as [|t l'] eqn:E; [done|].
    assert (t ∈ filter (λ t, metadata_name t = n) l) as Ht
      by (rewrite E; apply list_elem_of_here).
    apply list_elem_of_filter in Ht as [Hn Ht]. by exists t.
  - intros (t & Ht & ->) E.
    by apply (filter_nil_not_elem_of _ _ t) in E.
Qed.

Section Registry.

Context (_normalize_agent_name : string → string)
        (create_handoff_tool : Agent → BaseTool).

Local Abbreviation normalized l := (_normalize_agent_name ∘ agent_name <$> l).
Local Abbreviation construct :=
  (Supervisor_init _normalize_agent_name create_handoff_tool).

(** What a successful [_setup_agents_from] leaves in the table. *)
Lemma _setup_agents_from_table (l : list Agent) (names names' : gset string)
    (by_name by_name' : gmap string Agent) :
  _setup_agents_from _normalize_agent_name l names by_name = Ok (names', by_name') →
  (∀ ag, ag ∈ l → by_name' !! _normalize_agent_name (agent_name ag) = Some ag)
  ∧ (∀ n, n ∉ normalized l → by_name' !! n = by_name !! n)
  ∧ names' = list_to_set (normalized l) ∪ names.
Proof.
  revert names by_name. induction l as [|a l IH]; intros names by_name; simpl.
  - intros [= <- <-]. split_and!; [|done|set_solver].
    intros ag Hag. by apply elem_of_nil in Hag.
  - destruct (decide _) as [Hs|Hs]; [done|]. intros E.
    assert (is_ok (_setup_agents_from _normalize_agent_name l
              ({[_normalize_agent_name (agent_name a)]} ∪ names)
              (<[_normalize_agent_name (agent_name a) := a]> by_name)) = true)
      as Hok by (by rewrite E).
    apply _setup_agents_from_ok in Hok as [_ Hfree].
    assert (_normalize_agent_name (agent_name a) ∉ normalized l) as Hnew.
    { intros Hin. specialize (Hfree _ Hin). by rewrite lookup_insert_eq in Hfree. }
    destruct (IH _ _ E) as (Hin & Hout & ->). split_and!.
    + intros ag Hag. apply elem_of_cons in Hag as [->|Hag]; [|by apply Hin].
      rewrite Hout by done. by rewrite lookup_insert_eq.
    + intros n Hn. apply not_elem_of_cons in Hn as [Hne Hn].
      rewrite Hout by done. by rewrite lookup_insert_ne.
    + set_solver.
Qed.

(** The attributes of a Supervisor that was built. *)
Lemma construct_Ok (a : SupervisorArgs) (self : Supervisor) :
  construct a = Ok self →
  ∃ names by_name,
    _setup_agents _normalize_agent_name (arg_agents a) = Ok (names, by_name)
    ∧ agent_names self = names
    ∧ agents_by_name self = by_name
    ∧ agents self = arg_agents a
    ∧ agent_tools self = (create_handoff_tool <$> arg_agents a)
    ∧ tools self = arg_tools a ++ (create_handoff_tool <$> arg_agents a)
    ∧ tools_by_name self
      = by_tool_name (arg_tools a ++ (create_handoff_tool <$> arg_agents a))
    ∧ agents_by_tool_name self = by_tool_name (create_handoff_tool <$> arg_agents a)
    ∧ output_mode self = arg_output_mode a
    ∧ add_handoff_back_messages self = arg_add_handoff_back_messages a
    ∧ name self = arg_name a.
Proof.
  unfold Supervisor_init, assert, mbind, result_bind.
  destruct (is_function_calling_model (arg_llm a)); [|done].
  case_bool_decide; [|done].
  case_bool_decide; [|done].
  destruct (init_system_prompt (arg_system_prompt a)) as [sp|]; [|done].
  destruct (_setup_agents _ (arg_agents a)) as [[names by_name]|]; [|done].
  intros [= <-]. exists names, by_name. done.
Qed.

(** After construction every agent is found under its normalized name,
    nothing else is in the table, and [agent_names] is the set of the keys
    of the table. *)
Theorem agents_registered_by_normalized_name (a : SupervisorArgs) (self : Supervisor) :
  construct a = Ok self →
  (∀ ag, ag ∈ arg_agents a →
     agents_by_name self !! _normalize_agent_name (agent_name ag) = Some ag)
  ∧ (∀ n ag, agents_by_name self !! n = Some ag →
       ag ∈ arg_agents a ∧ n = _normalize_agent_name (agent_name ag))
  ∧ agent_names self = dom (agents_by_name self)
  ∧ size (agents_by_name self) = length (arg_agents a).
Proof.
  intros Hc.
  destruct (construct_Ok a self Hc) as (names & by_name & Hs & -> & -> & _).
  assert (NoDup (normalized (arg_agents a))) as Hnd
    by (apply _setup_agents_ok; by rewrite Hs).
  unfold _setup_agents in Hs.
  destruct (_setup_agents_from_table _ _ _ _ _ Hs) as (Hin & Hout & ->).
  assert (∀ n ag, by_name !! n = Some ag →
            ag ∈ arg_agents a ∧ n = _normalize_agent_name (agent_name ag)) as Hback.
  { intros n ag Hn.
    destruct (decide (n ∈ normalized (arg_agents a))) as [Hi|Hi].
    - apply list_elem_of_fmap in Hi as (ag' & -> & Hag').
      simpl in Hn. rewrite (Hin _ Hag') in Hn. by injection Hn as <-.
    - rewrite (Hout _ Hi), lookup_empty in Hn. done. }
  assert (dom by_name = list_to_set (normalized (arg_agents a))) as Hdom.
  { apply set_eq. intros n. rewrite elem_of_dom, elem_of_list_to_set. split.
    - intros [ag Hag]. destruct (Hback _ _ Hag) as [Hi ->].
      apply list_elem_of_fmap. by exists ag.
    - intros Hi. apply list_elem_of_fmap in Hi as (ag & -> & Hag).
      exists ag. by apply Hin. }
  split_and!; [done|done| |].
  - rewrite Hdom. set_solver.
  - rewrite <- size_dom, Hdom, size_list_to_set by done. by rewrite length_fmap.
Qed.

(** A name of a handoff tool resolves to the handoff tool, also when a
    tool that was passed in bears the same name. *)
Theorem handoff_tools_shadow_tools (a : SupervisorArgs) (self : Supervisor) (n : string) :
  construct a = Ok self →
  is_Some (agents_by_tool_name self !! n) →
  tools_by_name self !! n = agents_by_tool_name self !! n.
Proof.
  intros Hc.
  destruct (construct_Ok a self Hc) as (? & ? & _ & _ & _ & _ & _ & _ & -> & -> & _).
  rewrite !by_tool_name_lookup, filter_app, last_app.
  intros [t Ht]. by rewrite Ht.
Qed.

(** A request is split off as a handoff exactly when its target name is
    in the table of the handoff tools. *)
Theorem handoff_iff_in_handoff_table (a : SupervisorArgs) (self : Supervisor)
    (tc : ToolSelection) :
  construct a = Ok self →
  is_handoff self tc ↔ is_Some (agents_by_tool_name self !! tool_name tc).
Proof.
  intros Hc.
  destruct (construct_Ok a self Hc)
    as (? & ? & _ & _ & _ & _ & Hat & _ & _ & -> & _).
  unfold is_handoff. rewrite Hat. by rewrite by_tool_name_is_Some.
Qed.

(** The tool that a regular request resolves to is one of the tools that
    were passed in, never a handoff tool. *)
Theorem regular_request_resolves_to_passed_tool (a : SupervisorArgs)
    (self : Supervisor) (tc : ToolSelection) (t : BaseTool) :
  construct a = Ok self →
  ¬ is_handoff self tc →
  tools_by_name self !! tool_name tc = Some t →
  t ∈ arg_tools a ∧ metadata_name t = tool_name tc.
Proof.
  intros Hc Hreg.
  destruct (construct_Ok a self Hc)
    as (? & ? & _ & _ & _ & _ & Hat & _ & -> & _).
  unfold is_handoff in Hreg. rewrite Hat in Hreg.
  rewrite by_tool_name_lookup, filter_app.
  assert (filter (λ t, metadata_name t = tool_name tc)
                 (create_handoff_tool <$> arg_agents a) = []) as ->.
  { destruct (filter _ (create_handoff_tool <$> arg_agents a)) as [|t' l'] eqn:E;
      [done|]. exfalso. apply Hreg.
    assert (t' ∈ filter (λ t, metadata_name t = tool_name tc)
                        (create_handoff_tool <$> arg_agents a)) as Ht'
      by (rewrite E; apply list_elem_of_here).
    apply list_elem_of_filter in Ht' as [Hn Ht'].
    apply Exists_exists. by exists t'. }
  rewrite app_nil_r. intros Hl. apply last_Some_elem_of in Hl.
  apply list_elem_of_filter in Hl as [Hn Ht]. done.
Qed.

(** When the handoff tool of an agent is named [transfer_to_] followed by
    the normalized name of the agent, every request that is split off as a
    handoff finds its agent: the lookup in [_process_agent_handoff] does
    not fail. *)
Theorem normalized_handoff_finds_agent (a : SupervisorArgs) (self : Supervisor)
    (tc : ToolSelection) :
  (∀ ag, metadata_name (create_handoff_tool ag)
         = "transfer_to_" +:+ _normalize_agent_name (agent_name ag)) →
  construct a = Ok self →
  is_handoff self tc →
  ∃ ag, ag ∈ arg_agents a
        ∧ metadata_name (create_handoff_tool ag) = tool_name tc
        ∧ agents_by_name self !! removeprefix (tool_name tc) "transfer_to_" = Some ag.
Proof.
  intros Hname Hc Hh.
  destruct (construct_Ok a self Hc)
    as (names & by_name & Hs & _ & -> & _ & Hat & _).
  unfold is_handoff in Hh. rewrite Hat in Hh.
  apply Exists_exists in Hh as (t & Ht & Hn).
  apply list_elem_of_fmap in Ht as (ag & -> & Hag).
  exists ag. split_and!; [done|done|].
  rewrite Hn, Hname, removeprefix_app.
  unfold _setup_agents in Hs.
  destruct (_setup_agents_from_table _ _ _ _ _ Hs) as (Hin & _).
  by apply Hin.
Qed.

End Registry.

(** ** Turns *)

(** The two lists that [_split_tool_calls] returns hold every request of
    the turn exactly once, each in the order of the turn; the first holds
    the handoffs and the second the rest. *)
Theorem split_is_partition (self : Supervisor) (tool_calls : list ToolSelection) :
  (_split_tool_calls self tool_calls).1 ++ (_split_tool_calls self tool_calls).2
    ≡ₚ tool_calls
  ∧ (_split_tool_calls self tool_calls).1 `sublist_of` tool_calls
  ∧ (_split_tool_calls self tool_calls).2 `sublist_of` tool_calls
  ∧ Forall (is_handoff self) (_split_tool_calls self tool_calls).1
  ∧ Forall (λ tc, ¬ is_handoff self tc) (_split_tool_calls self tool_calls).2.
Proof.
  rewrite _split_tool_calls_spec. unfold regular_of. simpl. split_and!.
  - apply filter_app_complement.
  - apply sublist_filter.
  - apply sublist_filter.
  - apply Forall_forall. intros tc Htc. by apply list_elem_of_filter in Htc as [? _].
  - apply Forall_forall. intros tc Htc. by apply list_elem_of_filter in Htc as [? _].
Qed.


Lemma _update_memory_None (s : State) :
  ctx_memory s = None →
  _update_memory s
  = (if bool_decide (tool_msgs s = []) then Ok tt else Raise no_memory, s).
Proof.
  intros Hm. unfold _update_memory. rewrite bind_eq. unfold gets.
  case_bool_decide; [done|].
  rewrite bind_eq. unfold ctx_get_memory. by rewrite Hm.
Qed.

Lemma flushed_flushed (m : ChatMemoryBuffer) (s : State) :
  flushed m (flushed m s) = flushed m s.
Proof. done. Qed.

(** When the context holds a memory, [_update_memory] moves the pending
    batch to the end of the memory, in order, and empties the batch; a
    second call changes nothing. *)
Theorem _update_memory_moves_batch (s : State) (m : ChatMemoryBuffer) :
  ctx_memory s = Some m →
  is_Some (heap s !! chat_store m) →
  ∃ s', _update_memory s = (Ok tt, s')
        ∧ get_all (heap s') m = get_all (heap s) m ++ tool_msgs s
        ∧ tool_msgs s' = []
        ∧ ctx_memory s' = Some m
        ∧ runs s' = runs s
        ∧ _update_memory s' = (Ok tt, s').
Proof.
  intros Hm Hst. exists (flushed m s).
  rewrite (_update_memory_flushed m s Hm).
  split_and!; [done| |done|done|done|].
  - simpl. by apply get_all_put_all.
  - by rewrite (_update_memory_flushed m (flushed m s)).
Qed.

(** When the context holds no memory, [_update_memory] returns for an
    empty batch and raises for a batch that holds Messages; the state,
    the batch included, stays as it was. *)
Theorem _update_memory_without_memory (s : State) :
  ctx_memory s = None →
  (tool_msgs s = [] → _update_memory s = (Ok tt, s))
  ∧ (tool_msgs s ≠ [] → _update_memory s = (Raise no_memory, s)).
Proof.
  intros Hm. rewrite (_update_memory_None s Hm).
  split; intros Hb; [by rewrite bool_decide_eq_true_2|by rewrite bool_decide_eq_false_2].
Qed.

Section MoreTurns.

Context (create_handoff_back_messages : string → string → list ChatMessage)
        (token_window : list ChatMessage → list ChatMessage)
        (self : Supervisor).

Local Abbreviation handle :=
  (handle_tool_calls create_handoff_back_messages token_window self).
Local Abbreviation handoffs_step :=
  (_process_agent_handoffs create_handoff_back_messages token_window self).

Lemma end_of_turn_None (s : State) :
  ctx_memory s = None →
  (_update_memory ;; _get_input_event token_window) s = (Raise no_memory, s).
Proof.
  intros Hm. rewrite bind_eq, (_update_memory_None s Hm).
  case_bool_decide; [|done].
  unfold _get_input_event. rewrite bind_eq. unfold ctx_get_memory. by rewrite Hm.
Qed.

(** Without a memory in the context a turn raises the error of the
    missing key whatever its requests are; no sub-agent runs and no chat
    store changes. *)
Theorem turn_without_memory (tool_calls : list ToolSelection) (s : State) :
  ctx_memory s = None →
  ∃ s', handle tool_calls s = (Raise no_memory, s')
        ∧ runs s' = runs s
        ∧ heap s' = heap s
        ∧ ctx_memory s' = None.
Proof.
  intros Hm. rewrite handle_tool_calls_unfold.
  unfold _process_agent_handoffs.
  case_bool_decide as Hlen.
  - rewrite for_each_append. simpl.
    rewrite end_of_turn_None by done. by eexists.
  - destruct (filter (is_handoff self) tool_calls) as [|handoff [|h2 l]];
      [| |simpl in Hlen; lia].
    + simpl. rewrite end_of_turn_None by done. by eexists.
    + unfold _process_agent_handoff.
      destruct (agents_by_name self !! _) as [agent|].
      * rewrite bind_eq. simpl. rewrite bind_eq.
        rewrite _update_memory_None by done.
        rewrite bool_decide_eq_false_2 by (simpl; by destruct (_ <$> _)).
        by eexists.
      * simpl. rewrite end_of_turn_None by done. by eexists.
Qed.

(** A turn that returns has emptied the pending batch, and the event it
    returns carries the window of the memory that the context holds at the
    end of the turn. *)
Theorem turn_returns_memory_window (tool_calls : list ToolSelection)
    (s s' : State) (ev : Event) :
  handle tool_calls s = (Ok ev, s') →
  tool_msgs s' = []
  ∧ ∃ m, ctx_memory s' = Some m
         ∧ ev = InputEvent (token_window (get_all (heap s') m)).
Proof.
  rewrite handle_tool_calls_unfold.
  destruct (handoffs_step _ _) as [[[]|e] s2]; [|done].
  destruct (ctx_memory s2) as [m|] eqn:Hm.
  - rewrite (end_of_turn _ m) by done. intros [= <- <-].
    split; [done|]. by exists m.
  - by rewrite end_of_turn_None.
Qed.


End MoreTurns.

(** ** Preparing the chat history and querying the model *)

Lemma get_all_insert_ne (h : Heap) (m : ChatMemoryBuffer) (l : loc)
    (st : gmap string (list ChatMessage)) :
  l ≠ chat_store m → get_all (<[l := st]> h) m = get_all h m.
Proof. intros Hne. unfold get_all. by rewrite lookup_insert_ne. Qed.

Lemma fresh_store_is_new (h : Heap) (m : ChatMemoryBuffer) :
  is_Some (h !! chat_store m) → fresh (dom h) ≠ chat_store m.
Proof.
  intros Hs Heq. apply (is_fresh (dom h)). rewrite Heq. by apply elem_of_dom.
Qed.

Lemma user_turn_cases (input : option string) :
  (input ≠ None ∧ input ≠ Some "" ∧ user_turn input = [mkChatMessage USER (default "" input) ∅])
  ∨ (¬ (input ≠ None ∧ input ≠ Some "") ∧ user_turn input = []).
Proof.
  destruct input as [text|]; simpl.
  - case_bool_decide as Ht.
    + right. split; [|done]. intros [_ Hn]. by subst.
    + left. split_and!; [done| |done]. by intros [= ->].
  - right. split; [|done]. by intros [? _].
Qed.

Section Input.

Context (token_window : list ChatMessage → list ChatMessage).

Lemma prepare_chat_history_eq (input : option string) (s : State) :
  prepare_chat_history token_window input s
  = let memory := default (from_defaults (heap s)).1 (ctx_memory s) in
    let h := if bool_decide (input ≠ None ∧ input ≠ Some "")
             then put memory (mkChatMessage USER (default "" input) ∅)
                      (from_defaults (heap s)).2
             else (from_defaults (heap s)).2 in
    (Ok (InputEvent (token_window (get_all h memory))),
     mkState h (Some memory) (tool_msgs s) (stream s) (runs s)).
Proof.
  unfold prepare_chat_history. rewrite bind_eq. simpl.
  rewrite bind_eq. unfold gets. simpl. rewrite bind_eq.
  by case_bool_decide.
Qed.

(** When the context already holds a memory, [prepare_chat_history] adds
    the input of the user, if there is one, to the end of that memory and
    returns the window of the result; an absent or empty input adds
    nothing. *)
Theorem prepare_chat_history_appends (input : option string) (s : State)
    (m : ChatMemoryBuffer) :
  ctx_memory s = Some m →
  is_Some (heap s !! chat_store m) →
  ∃ s', prepare_chat_history token_window input s
        = (Ok (InputEvent (token_window (get_all (heap s) m ++ user_turn input))), s')
        ∧ get_all (heap s') m = get_all (heap s) m ++ user_turn input
        ∧ ctx_memory s' = Some m
        ∧ runs s' = runs s.
Proof.
  intros Hm Hst. pose proof (fresh_store_is_new _ _ Hst) as Hfresh.
  rewrite prepare_chat_history_eq, Hm. simpl.
  destruct (user_turn_cases input) as [(H1 & H2 & ->)|[Hn ->]].
  - rewrite bool_decide_eq_true_2 by done.
    rewrite get_all_put by (by rewrite lookup_insert_ne).
    rewrite get_all_insert_ne by done.
    eexists. split; [done|]. simpl.
    rewrite get_all_put by (by rewrite lookup_insert_ne).
    by rewrite get_all_insert_ne.
  - rewrite bool_decide_eq_false_2 by done.
    rewrite get_all_insert_ne by done. rewrite app_nil_r.
    eexists. split; [done|]. simpl. by rewrite get_all_insert_ne.
Qed.

(** On a context without a memory, [prepare_chat_history] puts a new
    memory in the context, over a store that did not exist before; it holds
    the input of the user and nothing else, and the stores that existed are
    left as they were. *)
Theorem prepare_chat_history_creates_memory (input : option string) (s : State) :
  ctx_memory s = None →
  ∃ m s', prepare_chat_history token_window input s
          = (Ok (InputEvent (token_window (user_turn input))), s')
          ∧ ctx_memory s' = Some m
          ∧ get_all (heap s') m = user_turn input
          ∧ (chat_store m ∉ dom (heap s))
          ∧ (∀ l, l ∈ dom (heap s) → heap s' !! l = heap s !! l).
Proof.
  intros Hm.
  set (m := {| chat_store := fresh (dom (heap s)); chat_store_key := "chat_history" |}).
  assert (∀ l, l ∈ dom (heap s) → fresh (dom (heap s)) ≠ l) as Hne.
  { intros l Hl Heq. apply (is_fresh (dom (heap s))). by rewrite Heq. }
  assert (get_all (<[fresh (dom (heap s)) := ∅]> (heap s)) m = []) as Hnew.
  { unfold get_all. simpl. by rewrite lookup_insert_eq. }
  exists m. rewrite prepare_chat_history_eq, Hm. simpl. fold m.
  destruct (user_turn_cases input) as [(H1 & H2 & ->)|[Hn ->]].
  - rewrite bool_decide_eq_true_2 by done.
    rewrite get_all_put by (simpl; by rewrite lookup_insert_eq).
    rewrite Hnew. simpl.
    eexists. split; [done|]. simpl. split_and!; [done| |apply is_fresh|].
    + rewrite get_all_put by (simpl; by rewrite lookup_insert_eq).
      by rewrite Hnew.
    + intros l Hl. unfold put. simpl.
      rewrite lookup_alter_ne by (by apply Hne).
      rewrite lookup_insert_ne by (by apply Hne). done.
  - rewrite bool_decide_eq_false_2 by done. rewrite Hnew.
    eexists. split; [done|]. simpl. split_and!; [done|done|apply is_fresh|].
    intros l Hl. rewrite lookup_insert_ne by (by apply Hne). done.
Qed.

End Input.

Lemma for_each_stream (rs : list ChatResponse) (s : State) :
  for_each rs (λ response, modify (add_stream (default "" (delta response)))) s
  = (Ok tt, mkState (heap s) (ctx_memory s) (tool_msgs s)
                    (stream s ++ (delta_text <$> rs)) (runs s)).
Proof.
  revert s. induction rs as [|r rs IH]; intros s; simpl.
  - rewrite app_nil_r. by destruct s.
  - rewrite bind_eq. simpl. rewrite IH. simpl.
    by rewrite <- app_assoc.
Qed.

Lemma _get_llm_response_eq (self : Supervisor)
    (chat_history : list ChatMessage) (s : State) :
  _get_llm_response self chat_history s
  = (Ok (last (astream_chat_with_tools (llm self) (tools self)
                 (system_prompt self ++ chat_history))),
     mkState (heap s) (ctx_memory s) (tool_msgs s)
       (stream s ++ (delta_text <$> astream_chat_with_tools (llm self) (tools self)
                                      (system_prompt self ++ chat_history)))
       (runs s)).
Proof.
  unfold _get_llm_response. rewrite bind_eq, for_each_stream. done.
Qed.

(** [_get_llm_response] queries the model with the system prompt in front
    of the chat history, writes one stream event per response, in order,
    with the delta of the response or the empty string, returns the last
    response, and changes nothing else. *)
Theorem _get_llm_response_streams (self : Supervisor)
    (chat_history : list ChatMessage) (s : State) :
  _get_llm_response self chat_history s
  = (Ok (last (astream_chat_with_tools (llm self) (tools self)
                 (system_prompt self ++ chat_history))),
     mkState (heap s) (ctx_memory s) (tool_msgs s)
       (stream s ++ (delta_text <$> astream_chat_with_tools (llm self) (tools self)
                                      (system_prompt self ++ chat_history)))
       (runs s)).
Proof.
  unfold _get_llm_response. rewrite bind_eq, for_each_stream. done.
Qed.

(** When the context holds a memory and the model streams at least one
    response, [handle_llm_input] adds the message of the last response to
    the memory and returns a stop event when that response asks for no tool,
    the requested tool calls otherwise. *)
Theorem handle_llm_input_appends_reply (self : Supervisor)
    (chat_history : list ChatMessage) (s : State) (m : ChatMemoryBuffer)
    (response : ChatResponse) :
  ctx_memory s = Some m →
  is_Some (heap s !! chat_store m) →
  last (astream_chat_with_tools (llm self) (tools self)
          (system_prompt self ++ chat_history)) = Some response →
  ∃ s', handle_llm_input self chat_history s
        = (Ok (if bool_decide (get_tool_calls_from_response (llm self) response = [])
               then StopEvent response
               else ToolCallEvent (get_tool_calls_from_response (llm self) response)),
           s')
        ∧ get_all (heap s') m = get_all (heap s) m ++ [message response]
        ∧ ctx_memory s' = Some m
        ∧ runs s' = runs s.
Proof.
  intros Hm Hst Hlast. unfold handle_llm_input.
  rewrite bind_eq, _get_llm_response_eq, Hlast.
  rewrite bind_eq. unfold ctx_get_memory. simpl. rewrite Hm.
  rewrite bind_eq. simpl. rewrite bind_eq. simpl.
  case_bool_decide; (eexists; split; [done|]); simpl;
    (split_and!; [by apply get_all_put|done|done]).
Qed.

(** [handle_llm_input] raises in two cases only: the context holds no
    memory (the error of the missing key, also when the stream is empty), or
    the model streamed no response; in both the chat stores stay as they
    were. *)
Theorem handle_llm_input_errors (self : Supervisor)
    (chat_history : list ChatMessage) (s s' : State) (e : exn) :
  handle_llm_input self chat_history s = (Raise e, s') →
  (ctx_memory s = None ∧ e = no_memory
   ∨ ctx_memory s ≠ None
     ∧ astream_chat_with_tools (llm self) (tools self)
         (system_prompt self ++ chat_history) = []
     ∧ e = no_response)
  ∧ heap s' = heap s.
Proof.
  unfold handle_llm_input.
  rewrite bind_eq, _get_llm_response_eq.
  rewrite bind_eq. unfold ctx_get_memory. simpl.
  destruct (ctx_memory s) as [m|] eqn:Hm.
  - destruct (last _) as [response|] eqn:Hlast.
    + rewrite bind_eq. simpl. rewrite bind_eq. simpl. by case_bool_decide.
    + intros [= <- <-]. split; [|done]. right.
      split_and!; [done| |done]. by apply last_None.
  - intros [= <- <-]. split; [|done]. by left.
Qed.

(** ** Running a sub-agent and merging its memory back *)

Lemma delete_message_is_Some (m : ChatMemoryBuffer) (idx : nat) (h : Heap) (l : loc) :
  is_Some (memory_delete_message m idx h !! l) ↔ is_Some (h !! l).
Proof.
  unfold memory_delete_message. destruct (decide (chat_store m = l)) as [<-|Hne].
  - rewrite lookup_alter_eq. by rewrite fmap_is_Some.
  - by rewrite lookup_alter_ne.
Qed.

Lemma get_all_delete_first (m : ChatMemoryBuffer) (h : Heap) :
  get_all (memory_delete_message m 0 h) m = drop 1 (get_all h m).
Proof.
  unfold get_all, memory_delete_message. rewrite lookup_alter_eq.
  destruct (h !! chat_store m) as [st|]; simpl; [|done].
  unfold delete_message, get_messages.
  destruct (st !! chat_store_key m) as [l|] eqn:E; simpl.
  - case_decide as Hl.
    + rewrite E. simpl. destruct l; [done|simpl in Hl; lia].
    + rewrite lookup_insert_eq. simpl. by destruct l.
  - by rewrite E.
Qed.

Lemma get_all_delete_other (m m' : ChatMemoryBuffer) (idx : nat) (h : Heap) :
  (chat_store m', chat_store_key m') ≠ (chat_store m, chat_store_key m) →
  get_all (memory_delete_message m idx h) m' = get_all h m'.
Proof.
  intros Hne. unfold get_all, memory_delete_message.
  destruct (decide (chat_store m = chat_store m')) as [Hl|Hl].
  - rewrite Hl, lookup_alter_eq.
    destruct (h !! chat_store m') as [st|]; simpl; [|done].
    unfold delete_message, get_messages.
    destruct (st !! chat_store_key m) as [l|]; [|done].
    case_decide; [done|].
    rewrite lookup_insert_ne; [done|]. intros Hk. apply Hne. by rewrite Hl, Hk.
  - by rewrite lookup_alter_ne.
Qed.

Lemma get_all_put_other (m m' : ChatMemoryBuffer) (msg : ChatMessage) (h : Heap) :
  (chat_store m', chat_store_key m') ≠ (chat_store m, chat_store_key m) →
  get_all (put m msg h) m' = get_all h m'.
Proof.
  intros Hne. unfold get_all, put.
  destruct (decide (chat_store m = chat_store m')) as [Hl|Hl].
  - rewrite Hl, lookup_alter_eq.
    destruct (h !! chat_store m') as [st|]; simpl; [|done].
    unfold add_message, get_messages.
    rewrite lookup_insert_ne; [done|]. intros Hk. apply Hne. by rewrite Hl, Hk.
  - by rewrite lookup_alter_ne.
Qed.

Section Merge.

Context (create_handoff_back_messages : string → string → list ChatMessage)
        (token_window : list ChatMessage → list ChatMessage)
        (self : Supervisor).

Local Abbreviation handle :=
  (handle_tool_calls create_handoff_back_messages token_window self).
Local Abbreviation run := (_run_agent token_window self).
Local Abbreviation back := (handoff_back_of create_handoff_back_messages self).

(** [_run_agent], given what the run of the agent returns. *)
Lemma _run_agent_after (agent : Agent) (s : State) (m : ChatMemoryBuffer)
    (r : result ChatMemoryBuffer) (h : Heap) :
  ctx_memory s = Some m →
  agent_run agent (model_copy m) (token_window (get_all (heap s) m)) (heap s) = (r, h) →
  run agent s
  = match r with
    | Raise e => (Raise e, started token_window agent m h s)
    | Ok memo =>
        if bool_decide (output_mode self = "full_history") then
          (Ok tt, set_ctx_memory memo
                    (set_heap (memory_delete_message memo 0 h)
                              (started token_window agent m h s)))
        else if bool_decide (output_mode self = "last_message") then
          match last (get_all h memo) with
          | None => (Raise no_last_message, started token_window agent m h s)
          | Some x => (Ok tt, set_heap (put m x h) (started token_window agent m h s))
          end
        else (Ok tt, started token_window agent m h s)
    end.
Proof.
  intros Hm Hrun. unfold _run_agent.
  rewrite bind_eq. unfold ctx_get_memory. rewrite Hm.
  rewrite bind_eq. unfold memory_get, gets.
  rewrite bind_eq. unfold call_agent. simpl. rewrite Hrun.
  destruct r as [memo|e]; [|done].
  case_bool_decide; [done|].
  case_bool_decide; [|done].
  rewrite bind_eq. unfold memory_get_all, gets. simpl.
  by destruct (last (get_all h memo)).
Qed.

(** Under [full_history] the context takes over the memory of the
    sub-agent, without the first Message that memory holds; every other
    store and key keeps what the sub-agent left there. *)
Theorem full_history_adopts_agent_memory (agent : Agent) (s : State)
    (m memo : ChatMemoryBuffer) (h : Heap) :
  output_mode self = "full_history" →
  ctx_memory s = Some m →
  agent_run agent (model_copy m) (token_window (get_all (heap s) m)) (heap s)
  = (Ok memo, h) →
  ∃ s', run agent s = (Ok tt, s')
        ∧ ctx_memory s' = Some memo
        ∧ get_all (heap s') memo = drop 1 (get_all h memo)
        ∧ (∀ m', (chat_store m', chat_store_key m')
                 ≠ (chat_store memo, chat_store_key memo) →
                 get_all (heap s') m' = get_all h m')
        ∧ tool_msgs s' = tool_msgs s.
Proof.
  intros Hmode Hm Hrun.
  rewrite (_run_agent_after agent s m _ h Hm Hrun).
  rewrite bool_decide_eq_true_2 by done.
  eexists. split; [done|]. simpl. split_and!; [done| | |done].
  - apply get_all_delete_first.
  - intros m' Hne. by apply get_all_delete_other.
Qed.

(** Under [last_message] the context keeps the memory of the supervisor,
    and the last Message of the memory of the sub-agent is put at its end;
    every other store and key keeps what the sub-agent left there. *)
Theorem last_message_appends_final_message (agent : Agent) (s : State)
    (m memo : ChatMemoryBuffer) (h : Heap) (x : ChatMessage) :
  output_mode self = "last_message" →
  ctx_memory s = Some m →
  agent_run agent (model_copy m) (token_window (get_all (heap s) m)) (heap s)
  = (Ok memo, h) →
  is_Some (h !! chat_store m) →
  last (get_all h memo) = Some x →
  ∃ s', run agent s = (Ok tt, s')
        ∧ ctx_memory s' = Some m
        ∧ get_all (heap s') m = get_all h m ++ [x]
        ∧ (∀ m', (chat_store m', chat_store_key m') ≠ (chat_store m, chat_store_key m) →
                 get_all (heap s') m' = get_all h m')
        ∧ tool_msgs s' = tool_msgs s.
Proof.
  intros Hmode Hm Hrun Hst Hlast.
  rewrite (_run_agent_after agent s m _ h Hm Hrun).
  rewrite bool_decide_eq_false_2 by (rewrite Hmode; done).
  rewrite bool_decide_eq_true_2 by done.
  rewrite Hlast.
  eexists. split; [done|]. simpl. split_and!; [done| | |done].
  - by apply get_all_put.
  - intros m' Hne. by apply get_all_put_other.
Qed.

(** Under [last_message] a sub-agent that hands back an empty memory makes
    [_run_agent] raise an index error; nothing is merged. *)
Theorem last_message_of_empty_memory (agent : Agent) (s : State)
    (m memo : ChatMemoryBuffer) (h : Heap) :
  output_mode self = "last_message" →
  ctx_memory s = Some m →
  agent_run agent (model_copy m) (token_window (get_all (heap s) m)) (heap s)
  = (Ok memo, h) →
  get_all h memo = [] →
  ∃ s', run agent s = (Raise no_last_message, s')
        ∧ heap s' = h
        ∧ ctx_memory s' = Some m.
Proof.
  intros Hmode Hm Hrun Hempty.
  rewrite (_run_agent_after agent s m _ h Hm Hrun).
  rewrite bool_decide_eq_false_2 by (rewrite Hmode; done).
  rewrite bool_decide_eq_true_2 by done.
  rewrite Hempty. simpl. by eexists.
Qed.

(** A turn with one handoff to a registered agent, up to the return of
    [_run_agent]. *)
Lemma known_handoff_unfold (tool_calls : list ToolSelection)
    (handoff : ToolSelection) (agent : Agent) (s : State) (m : ChatMemoryBuffer) :
  filter (is_handoff self) tool_calls = [handoff] →
  agents_by_name self !! removeprefix (tool_name handoff) "transfer_to_" = Some agent →
  ctx_memory s = Some m →
  handle tool_calls s
  = match run agent (transferred self tool_calls agent handoff m s) with
    | (Raise e, s3) => (Raise e, s3)
    | (Ok _, s3) =>
        match (if add_handoff_back_messages self
               then tool_msgs_extend
                      (create_handoff_back_messages (agent_name agent) (name self)) ;;
                    _update_memory
               else mret tt) s3 with
        | (Raise e, s4) => (Raise e, s4)
        | (Ok _, s4) => (_update_memory ;; _get_input_event token_window) s4
        end
    end.
Proof.
  intros Hone Hsome Hm.
  rewrite handle_tool_calls_unfold, Hone.
  unfold _process_agent_handoffs, _process_agent_handoff.
  rewrite bool_decide_eq_false_2 by (simpl; lia).
  rewrite Hsome. rewrite bind_eq. simpl. rewrite bind_eq.
  rewrite (_update_memory_flushed m) by done.
  rewrite bind_eq.
  replace (flushed m (set_tool_msgs
             ((regular_result self <$> regular_of self tool_calls)
              ++ [transfer_message agent handoff])
             (dispatched self tool_calls s)))
    with (transferred self tool_calls agent handoff m s) by done.
  destruct (run agent _) as [[[]|e] s3]; [|done].
  destruct (add_handoff_back_messages self); [|done].
  by destruct ((tool_msgs_extend _ ;; _update_memory) s3) as [[[]|?] ?].
Qed.

(** The end of a turn after the sub-agent handed control back: the
    handoff-back Messages go to the memory the context holds then. *)
Lemma handoff_back_tail (agent : Agent) (s3 : State) (m3 : ChatMemoryBuffer) :
  ctx_memory s3 = Some m3 →
  tool_msgs s3 = [] →
  match (if add_handoff_back_messages self
         then tool_msgs_extend
                (create_handoff_back_messages (agent_name agent) (name self)) ;;
              _update_memory
         else mret tt) s3 with
  | (Raise e, s4) => (Raise e, s4)
  | (Ok _, s4) => (_update_memory ;; _get_input_event token_window) s4
  end
  = (Ok (InputEvent (token_window (get_all (put_all m3 (back agent) (heap s3)) m3))),
     mkState (put_all m3 (back agent) (heap s3)) (Some m3) [] (stream s3) (runs s3)).
Proof.
  intros Hm Hb. unfold handoff_back_of.
  destruct (add_handoff_back_messages self).
  - rewrite bind_eq. simpl.
    rewrite (_update_memory_flushed m3) by done.
    rewrite (end_of_turn _ m3) by done. simpl. by rewrite Hb.
  - simpl. rewrite (end_of_turn _ m3) by done.
    unfold flushed. by rewrite Hb.
Qed.

(** A failure of the sub-agent ends the turn with that failure: the
    transfer is in the memory, no handoff-back Message is added, and the
    heap is the one the sub-agent left. *)
Theorem agent_failure_ends_turn (tool_calls : list ToolSelection)
    (handoff : ToolSelection) (agent : Agent) (s : State) (m : ChatMemoryBuffer)
    (e : exn) (h : Heap) :
  filter (is_handoff self) tool_calls = [handoff] →
  agents_by_name self !! removeprefix (tool_name handoff) "transfer_to_" = Some agent →
  ctx_memory s = Some m →
  is_Some (heap s !! chat_store m) →
  agent_run agent (model_copy m)
    (token_window (get_all (heap s) m ++ transfer_batch self tool_calls agent handoff))
    (put_all m (transfer_batch self tool_calls agent handoff) (heap s))
  = (Raise e, h) →
  ∃ s', handle tool_calls s = (Raise e, s')
        ∧ heap s' = h
        ∧ ctx_memory s' = Some m
        ∧ tool_msgs s' = [].
Proof.
  intros Hone Hsome Hm Hst Hrun.
  rewrite (known_handoff_unfold _ _ _ _ m Hone Hsome Hm).
  rewrite (_run_agent_after agent _ m (Raise e) h); [by eexists|done|].
  simpl. by rewrite get_all_put_all.
Qed.

(** A whole turn under [last_message]: after the run the memory of the
    supervisor is what the sub-agent left in it, then the last Message of
    the memory of the sub-agent, then the handoff-back Messages. *)
Theorem last_message_turn (tool_calls : list ToolSelection)
    (handoff : ToolSelection) (agent : Agent) (s : State)
    (m memo : ChatMemoryBuffer) (h : Heap) (x : ChatMessage) :
  filter (is_handoff self) tool_calls = [handoff] →
  agents_by_name self !! removeprefix (tool_name handoff) "transfer_to_" = Some agent →
  ctx_memory s = Some m →
  is_Some (heap s !! chat_store m) →
  output_mode self = "last_message" →
  agent_run agent (model_copy m)
    (token_window (get_all (heap s) m ++ transfer_batch self tool_calls agent handoff))
    (put_all m (transfer_batch self tool_calls agent handoff) (heap s))
  = (Ok memo, h) →
  is_Some (h !! chat_store m) →
  last (get_all h memo) = Some x →
  ∃ s', handle tool_calls s
        = (Ok (InputEvent (token_window (get_all (heap s') m))), s')
        ∧ ctx_memory s' = Some m
        ∧ get_all (heap s') m = get_all h m ++ [x] ++ back agent.
Proof.
  intros Hone Hsome Hm Hst Hmode Hrun Hh Hlast.
  rewrite (known_handoff_unfold _ _ _ _ m Hone Hsome Hm).
  rewrite (_run_agent_after agent _ m (Ok memo) h);
    [|done|simpl; by rewrite get_all_put_all].
  rewrite bool_decide_eq_false_2 by (rewrite Hmode; done).
  rewrite bool_decide_eq_true_2 by done.
  rewrite Hlast.
  rewrite (handoff_back_tail agent _ m) by done. simpl.
  eexists (mkState _ _ _ _ _). split; [reflexivity|]. simpl. split; [done|].
  rewrite get_all_put_all by (by apply put_is_Some).
  rewrite get_all_put by done. by rewrite <- app_assoc.
Qed.

(** A whole turn under [full_history]: after the run the context holds
    the memory of the sub-agent, which is what the sub-agent left in it
    without its first Message, then the handoff-back Messages. *)
Theorem full_history_turn (tool_calls : list ToolSelection)
    (handoff : ToolSelection) (agent : Agent) (s : State)
    (m memo : ChatMemoryBuffer) (h : Heap) :
  filter (is_handoff self) tool_calls = [handoff] →
  agents_by_name self !! removeprefix (tool_name handoff) "transfer_to_" = Some agent →
  ctx_memory s = Some m →
  is_Some (heap s !! chat_store m) →
  output_mode self = "full_history" →
  agent_run agent (model_copy m)
    (token_window (get_all (heap s) m ++ transfer_batch self tool_calls agent handoff))
    (put_all m (transfer_batch self tool_calls agent handoff) (heap s))
  = (Ok memo, h) →
  is_Some (h !! chat_store memo) →
  ∃ s', handle tool_calls s
        = (Ok (InputEvent (token_window (get_all (heap s') memo))), s')
        ∧ ctx_memory s' = Some memo
        ∧ get_all (heap s') memo = drop 1 (get_all h memo) ++ back agent.
Proof.
  intros Hone Hsome Hm Hst Hmode Hrun Hh.
  rewrite (known_handoff_unfold _ _ _ _ m Hone Hsome Hm).
  rewrite (_run_agent_after agent _ m (Ok memo) h);
    [|done|simpl; by rewrite get_all_put_all].
  rewrite bool_decide_eq_true_2 by done.
  rewrite (handoff_back_tail agent _ memo) by done. simpl.
  eexists (mkState _ _ _ _ _). split; [reflexivity|]. simpl. split; [done|].
  rewrite get_all_put_all by (by apply delete_message_is_Some).
  by rewrite get_all_delete_first.
Qed.

End Merge.

(** ** The further properties on concrete inputs *)

Lemma team_normalized_built :
  Supervisor_init normalize normalized_handoff_tool
    (args [researcher; math_expert] [add_tool] SPNone "full_history")
  = Ok team_normalized.
Proof.
  unfold team_normalized, researcher, math_expert.
  generalize two_turns, no_turn. intros run1 run2.
  vm_compute. reflexivity.
Qed.

Lemma shadowed_built :
  init (args [researcher] [shadow_tool] SPNone "full_history") = Ok shadowed.
Proof.
  unfold shadowed, researcher. generalize two_turns. intros run1.
  vm_compute. reflexivity.
Qed.

Lemma solo_built (agent : Agent) :
  init (args [agent] [] SPNone "full_history") = Ok (solo agent "full_history").
Proof. done. Qed.

Lemma construction_errors_witness :
  nothing_registered = not_function_calling
  ∨ nothing_registered = bad_output_mode
  ∨ nothing_registered = nothing_registered
  ∨ nothing_registered = parameterized_generic
  ∨ ∃ n, n ∈ (normalize ∘ agent_name <$> arg_agents (args [] [] SPNone "full_history"))
         ∧ nothing_registered = duplicate_agent_error n.
Proof.
  apply (construction_errors normalize handoff_tool
           (args [] [] SPNone "full_history") nothing_registered).
  reflexivity.
Defined.

Lemma empty_registry_rejected_witness :
  (∃ msg, init (args [] [] SPNone "full_history") = Raise (AssertionError msg))
  ∧ (is_function_calling_model (arg_llm (args [] [] SPNone "full_history")) = true →
     arg_output_mode (args [] [] SPNone "full_history")
       ∈ ["full_history"; "last_message"] →
     init (args [] [] SPNone "full_history") = Raise nothing_registered).
Proof.
  apply (empty_registry_rejected normalize handoff_tool
           (args [] [] SPNone "full_history")); reflexivity.
Defined.

Lemma agents_registered_by_normalized_name_witness :
  (∀ ag, ag ∈ [researcher; math_expert] →
     agents_by_name (team "full_history") !! normalize (agent_name ag) = Some ag)
  ∧ (∀ n ag, agents_by_name (team "full_history") !! n = Some ag →
       ag ∈ [researcher; math_expert] ∧ n = normalize (agent_name ag))
  ∧ agent_names (team "full_history") = dom (agents_by_name (team "full_history"))
  ∧ size (agents_by_name (team "full_history")) = length [researcher; math_expert].
Proof.
  apply (agents_registered_by_normalized_name normalize handoff_tool
           (args [researcher; math_expert] [add_tool; failing_tool] SPNone "full_history")
           (team "full_history")).
  apply team_built.
Defined.

Lemma handoff_tools_shadow_tools_witness :
  tools_by_name shadowed !! "transfer_to_researcher"
  = agents_by_tool_name shadowed !! "transfer_to_researcher".
Proof.
  apply (handoff_tools_shadow_tools normalize handoff_tool
           (args [researcher] [shadow_tool] SPNone "full_history") shadowed).
  - apply shadowed_built.
  - by eexists.
Defined.

Lemma handoff_iff_in_handoff_table_witness :
  is_handoff (team "full_history") handoff_call
  ↔ is_Some (agents_by_tool_name (team "full_history") !! tool_name handoff_call).
Proof.
  apply (handoff_iff_in_handoff_table normalize handoff_tool
           (args [researcher; math_expert] [add_tool; failing_tool] SPNone "full_history")
           (team "full_history") handoff_call).
  apply team_built.
Defined.

Lemma regular_request_resolves_to_passed_tool_witness :
  add_tool ∈ [add_tool; failing_tool] ∧ metadata_name add_tool = tool_name add_call.
Proof.
  apply (regular_request_resolves_to_passed_tool normalize handoff_tool
           (args [researcher; math_expert] [add_tool; failing_tool] SPNone "full_history")
           (team "full_history") add_call add_tool).
  - apply team_built.
  - decide_by_computation.
  - reflexivity.
Defined.

Lemma normalized_handoff_finds_agent_witness :
  ∃ ag, ag ∈ [researcher; math_expert]
        ∧ metadata_name (normalized_handoff_tool ag) = tool_name handoff_call3
        ∧ agents_by_name team_normalized
            !! removeprefix (tool_name handoff_call3) "transfer_to_" = Some ag.
Proof.
  apply (normalized_handoff_finds_agent normalize normalized_handoff_tool
           (args [researcher; math_expert] [add_tool] SPNone "full_history")
           team_normalized handoff_call3).
  - reflexivity.
  - apply team_normalized_built.
  - decide_by_computation.
Defined.

Lemma _update_memory_moves_batch_witness :
  ∃ s', _update_memory s_pending = (Ok tt, s')
        ∧ get_all (heap s') memory0 = get_all (heap s_pending) memory0 ++ tool_msgs s_pending
        ∧ tool_msgs s' = []
        ∧ ctx_memory s' = Some memory0
        ∧ runs s' = runs s_pending
        ∧ _update_memory s' = (Ok tt, s').
Proof.
  apply (_update_memory_moves_batch s_pending memory0).
  - reflexivity.
  - decide_by_computation.
Defined.

Lemma _update_memory_without_memory_witness :
  (tool_msgs s_new = [] → _update_memory s_new = (Ok tt, s_new))
  ∧ (tool_msgs s_new ≠ [] → _update_memory s_new = (Raise no_memory, s_new)).
Proof. apply (_update_memory_without_memory s_new). reflexivity. Defined.

Lemma turn_without_memory_witness :
  ∃ s', turn (team "full_history") [add_call; handoff_call] s_new = (Raise no_memory, s')
        ∧ runs s' = runs s_new
        ∧ heap s' = heap s_new
        ∧ ctx_memory s' = None.
Proof.
  apply (turn_without_memory handoff_back whole (team "full_history")
           [add_call; handoff_call] s_new).
  reflexivity.
Defined.

Lemma turn_returns_memory_window_witness :
  ∃ ev s', turn (team "full_history") [add_call; email_call] s0 = (Ok ev, s')
           ∧ tool_msgs s' = []
           ∧ ∃ m, ctx_memory s' = Some m
                  ∧ ev = InputEvent (whole (get_all (heap s') m)).
Proof.
  destruct (turn (team "full_history") [add_call; email_call] s0) as [[ev|e] s'] eqn:E.
  - exists ev, s'. split; [reflexivity|].
    apply (turn_returns_memory_window handoff_back whole (team "full_history")
             [add_call; email_call] s0 s' ev).
    exact E.
  - vm_compute in E. discriminate E.
Defined.


Lemma prepare_chat_history_appends_witness :
  ∃ s', prepare_chat_history whole (Some "And Y?") s0
        = (Ok (InputEvent (whole (get_all (heap s0) memory0 ++ user_turn (Some "And Y?")))),
           s')
        ∧ get_all (heap s') memory0 = get_all (heap s0) memory0 ++ user_turn (Some "And Y?")
        ∧ ctx_memory s' = Some memory0
        ∧ runs s' = runs s0.
Proof.
  apply (prepare_chat_history_appends whole (Some "And Y?") s0 memory0).
  - reflexivity.
  - decide_by_computation.
Defined.

Lemma prepare_chat_history_creates_memory_witness :
  ∃ m s', prepare_chat_history whole (Some "Find X") s_new
          = (Ok (InputEvent (whole (user_turn (Some "Find X")))), s')
          ∧ ctx_memory s' = Some m
          ∧ get_all (heap s') m = user_turn (Some "Find X")
          ∧ (chat_store m ∉ dom (heap s_new))
          ∧ (∀ l, l ∈ dom (heap s_new) → heap s' !! l = heap s_new !! l).
Proof.
  apply (prepare_chat_history_creates_memory whole (Some "Find X") s_new).
  reflexivity.
Defined.

Lemma handle_llm_input_appends_reply_witness :
  ∃ s', handle_llm_input (team_with caller_llm "full_history") [ask] s0
        = (Ok (if bool_decide
                    (get_tool_calls_from_response
                       (llm (team_with caller_llm "full_history")) part2 = [])
               then StopEvent part2
               else ToolCallEvent
                      (get_tool_calls_from_response
                         (llm (team_with caller_llm "full_history")) part2)),
           s')
        ∧ get_all (heap s') memory0 = get_all (heap s0) memory0 ++ [message part2]
        ∧ ctx_memory s' = Some memory0
        ∧ runs s' = runs s0.
Proof.
  apply (handle_llm_input_appends_reply (team_with caller_llm "full_history")
           [ask] s0 memory0 part2).
  - reflexivity.
  - decide_by_computation.
  - reflexivity.
Defined.

Lemma handle_llm_input_errors_witness :
  (ctx_memory s0 = None ∧ no_response = no_memory
   ∨ ctx_memory s0 ≠ None
     ∧ astream_chat_with_tools (llm (team "full_history")) (tools (team "full_history"))
         (system_prompt (team "full_history") ++ [ask]) = []
     ∧ no_response = no_response)
  ∧ heap s0 = heap s0.
Proof.
  apply (handle_llm_input_errors (team "full_history") [ask] s0 s0 no_response).
  reflexivity.
Defined.

Lemma full_history_adopts_agent_memory_witness :
  ∃ s', _run_agent whole (team "full_history") researcher s0 = (Ok tt, s')
        ∧ ctx_memory s' = Some (model_copy memory0)
        ∧ get_all (heap s') (model_copy memory0)
          = drop 1 (get_all (put memory0 finding2 (put memory0 finding1 (heap s0)))
                            (model_copy memory0))
        ∧ (∀ m', (chat_store m', chat_store_key m')
                 ≠ (chat_store (model_copy memory0), chat_store_key (model_copy memory0)) →
                 get_all (heap s') m'
                 = get_all (put memory0 finding2 (put memory0 finding1 (heap s0))) m')
        ∧ tool_msgs s' = tool_msgs s0.
Proof.
  apply (full_history_adopts_agent_memory whole (team "full_history") researcher
           s0 memory0 (model_copy memory0)
           (put memory0 finding2 (put memory0 finding1 (heap s0))));
    reflexivity.
Defined.

Lemma last_message_appends_final_message_witness :
  ∃ s', _run_agent whole (team "last_message") researcher s0 = (Ok tt, s')
        ∧ ctx_memory s' = Some memory0
        ∧ get_all (heap s') memory0
          = get_all (put memory0 finding2 (put memory0 finding1 (heap s0))) memory0
            ++ [finding2]
        ∧ (∀ m', (chat_store m', chat_store_key m')
                 ≠ (chat_store memory0, chat_store_key memory0) →
                 get_all (heap s') m'
                 = get_all (put memory0 finding2 (put memory0 finding1 (heap s0))) m')
        ∧ tool_msgs s' = tool_msgs s0.
Proof.
  apply (last_message_appends_final_message whole (team "last_message") researcher
           s0 memory0 (model_copy memory0)
           (put memory0 finding2 (put memory0 finding1 (heap s0))) finding2).
  - reflexivity.
  - reflexivity.
  - reflexivity.
  - decide_by_computation.
  - vm_compute. reflexivity.
Defined.

Lemma last_message_of_empty_memory_witness :
  ∃ s', _run_agent whole (solo blank_agent "last_message") blank_agent s0
        = (Raise no_last_message, s')
        ∧ heap s' = <[1 := ∅]> (heap s0)
        ∧ ctx_memory s' = Some memory0.
Proof.
  apply (last_message_of_empty_memory whole (solo blank_agent "last_message")
           blank_agent s0 memory0
           {| chat_store := 1; chat_store_key := "chat_history" |}
           (<[1 := ∅]> (heap s0))).
  - reflexivity.
  - reflexivity.
  - reflexivity.
  - vm_compute. reflexivity.
Defined.

Lemma agent_failure_ends_turn_witness :
  ∃ s', turn (solo broken_agent "full_history") [broken_call] s0
        = (Raise (RuntimeError "agent failed"), s')
        ∧ heap s'
          = put_all memory0
              (transfer_batch (solo broken_agent "full_history") [broken_call]
                 broken_agent broken_call)
              (heap s0)
        ∧ ctx_memory s' = Some memory0
        ∧ tool_msgs s' = [].
Proof.
  apply (agent_failure_ends_turn handoff_back whole (solo broken_agent "full_history")
           [broken_call] broken_call broken_agent s0 memory0).
  - vm_compute. reflexivity.
  - reflexivity.
  - reflexivity.
  - decide_by_computation.
  - reflexivity.
Defined.

Lemma last_message_turn_witness :
  ∃ s', turn (team "last_message") [handoff_call] s0
        = (Ok (InputEvent (whole (get_all (heap s') memory0))), s')
        ∧ ctx_memory s' = Some memory0
        ∧ get_all (heap s') memory0
          = get_all (researched "last_message") memory0 ++ [finding2]
            ++ handoff_back_of handoff_back (team "last_message") researcher.
Proof.
  apply (last_message_turn handoff_back whole (team "last_message")
           [handoff_call] handoff_call researcher s0 memory0 (model_copy memory0)
           (researched "last_message") finding2).
  - vm_compute. reflexivity.
  - reflexivity.
  - reflexivity.
  - decide_by_computation.
  - reflexivity.
  - reflexivity.
  - decide_by_computation.
  - vm_compute. reflexivity.
Defined.

Lemma full_history_turn_witness :
  ∃ s', turn (team "full_history") [handoff_call] s0
        = (Ok (InputEvent (whole (get_all (heap s') (model_copy memory0)))), s')
        ∧ ctx_memory s' = Some (model_copy memory0)
        ∧ get_all (heap s') (model_copy memory0)
          = drop 1 (get_all (researched "full_history") (model_copy memory0))
            ++ handoff_back_of handoff_back (team "full_history") researcher.
Proof.
  apply (full_history_turn handoff_back whole (team "full_history")
           [handoff_call] handoff_call researcher s0 memory0 (model_copy memory0)
           (researched "full_history")).
  - vm_compute. reflexivity.
  - reflexivity.
  - reflexivity.
  - decide_by_computation.
  - reflexivity.
  - reflexivity.
  - decide_by_computation.
Defined.

(** * The dispatcher and what a tool may raise *)


(** On the tools of the main model the two models of the dispatcher give
    the same batch, and neither raises. *)
Lemma _process_regular_tools_any_agrees (self : Supervisor)
    (regular_tools : list ToolSelection) (s : State) :
  _process_regular_tools_any (any_tool <$> tools_by_name self) regular_tools (tool_msgs s)
  = (Returns tt, tool_msgs (_process_regular_tools self regular_tools s).2).
Proof.
  rewrite _process_regular_tools_results. simpl.
  generalize (tool_msgs s). intros msgs. revert msgs.
  induction regular_tools as [|tc l IH]; intros msgs; simpl.
  - by rewrite app_nil_r.
  - unfold process_regular_tool_any, regular_result.
    rewrite lookup_fmap.
    destruct (tools_by_name self !! tool_name tc) as [t|]; simpl.
    + destruct (call t (tool_kwargs tc)); rewrite IH; by rewrite <- app_assoc.
    + rewrite IH. by rewrite <- app_assoc.
Qed.




(** * Tool names that are borne twice *)

(** C6 on concrete arguments: two tools named [add] are accepted, both stay
    in [self.tools] and the name resolves to the second; a tool that bears
    the name of the handoff tool of an agent is accepted and the name
    resolves to the handoff tool; two agents with one normalized name are
    rejected. *)
Theorem duplicate_tool_name_overwrites :
  match init (args [] [add_tool; add_tool'] SPNone "full_history") with
  | Ok self =>
      metadata_name <$> tools self = ["add"; "add"]
      ∧ (λ t, call t ∅) <$> tools_by_name self !! "add" = Some (Ok "4")
      ∧ size (tools_by_name self) = 1
  | Raise _ => False
  end
  ∧ match init (args [researcher] [shadow_tool] SPNone "full_history") with
    | Ok self =>
        metadata_name <$> tools self
        = ["transfer_to_researcher"; "transfer_to_researcher"]
        ∧ (λ t, call t ∅) <$> tools_by_name self !! "transfer_to_researcher"
          = Some (Ok "Successfully transferred to researcher")
        ∧ size (tools_by_name self) = 1
    | Raise _ => False
    end
  ∧ init (args [researcher; researcher_twin] [add_tool] SPNone "full_history")
    = Raise (duplicate_agent_error "researcher").
Proof. split_and!; vm_compute; done. Qed.

(** * A request for the handoff to an agent that is not registered *)




Section Unregistered.

Context (_normalize_agent_name : string → string)
        (create_handoff_tool : Agent → BaseTool)
        (create_handoff_back_messages : string → string → list ChatMessage)
        (token_window : list ChatMessage → list ChatMessage).


End Unregistered.


(** * The one run of a sub-agent *)

Lemma quiet_merge_back (self : Supervisor) (memory memo : ChatMemoryBuffer) :
  quiet (merge_back self memory memo).
Proof.
  unfold merge_back. case_bool_decide.
  - apply quiet_bind; [by apply quiet_modify|auto with quiet].
  - case_bool_decide; [|auto with quiet].
    apply quiet_bind; [apply quiet_gets|]. intros all.
    destruct (last all); auto with quiet.
Qed.

Lemma quiet_after_run
    (create_handoff_back_messages : string → string → list ChatMessage)
    (token_window : list ChatMessage → list ChatMessage)
    (self : Supervisor) (agent_name : string) :
  quiet (after_run create_handoff_back_messages token_window self agent_name).
Proof.
  unfold after_run.
  apply quiet_bind; [destruct (add_handoff_back_messages self); auto with quiet|].
  intros _. auto with quiet.
Qed.

Lemma quiet_resume
    (create_handoff_back_messages : string → string → list ChatMessage)
    (token_window : list ChatMessage → list ChatMessage)
    (self : Supervisor) (agent_name : string) (memory : ChatMemoryBuffer)
    (r : result ChatMemoryBuffer) :
  quiet (resume create_handoff_back_messages token_window self agent_name memory r).
Proof.
  unfold resume. destruct r; [|auto with quiet].
  apply quiet_bind; [apply quiet_merge_back|].
  intros _. apply quiet_after_run.
Qed.

Section OneRun.

Context (create_handoff_back_messages : string → string → list ChatMessage)
        (token_window : list ChatMessage → list ChatMessage)
        (self : Supervisor).

Local Abbreviation handle :=
  (handle_tool_calls create_handoff_back_messages token_window self).

(** [_run_agent] is one application of the run of the agent, then the
    merge of what it returned. *)
Lemma _run_agent_merge (agent : Agent) (s : State) (m : ChatMemoryBuffer)
    (r : result ChatMemoryBuffer) (h : Heap) :
  ctx_memory s = Some m →
  agent_run agent (model_copy m) (token_window (get_all (heap s) m)) (heap s) = (r, h) →
  _run_agent token_window self agent s
  = match r with
    | Ok memo => merge_back self m memo (started token_window agent m h s)
    | Raise e => (Raise e, started token_window agent m h s)
    end.
Proof.
  intros Hm Hrun. rewrite (_run_agent_after _ _ agent s m r h Hm Hrun).
  destruct r as [memo|e]; [|done].
  unfold merge_back. case_bool_decide; [done|].
  case_bool_decide; [|done].
  rewrite bind_eq. unfold memory_get_all, gets. simpl.
  by destruct (last (get_all h memo)).
Qed.

(** C9: when the one handoff request of a turn names a registered agent,
    the run of that agent is applied once: to a copy of the memory of the
    supervisor, to the window of that memory and to a heap in which the
    memory already holds the results of the regular requests of the turn
    followed by the Message of the transfer, which carries the call id of
    the handoff and names the agent, the task and the reason. The rest of
    the turn starts from the heap that this application leaves and from
    what it returned, and uses of the agent no more than its name; the
    trace gains this one run. *)
Theorem known_agent_runs_once
    (tool_calls : list ToolSelection) (handoff : ToolSelection) (agent : Agent)
    (s : State) (m : ChatMemoryBuffer) (r : result ChatMemoryBuffer) (h : Heap) :
  filter (is_handoff self) tool_calls = [handoff] →
  agents_by_name self !! removeprefix (tool_name handoff) "transfer_to_" = Some agent →
  ctx_memory s = Some m →
  is_Some (heap s !! chat_store m) →
  agent_run agent (model_copy m)
    (token_window (get_all (heap s) m ++ transfer_batch self tool_calls agent handoff))
    (put_all m (transfer_batch self tool_calls agent handoff) (heap s))
  = (r, h) →
  ∃ (msg : ChatMessage) (run : AgentRun),
    transfer_batch self tool_calls agent handoff
    = (regular_result self <$> regular_of self tool_calls) ++ [msg]
    ∧ correlated handoff msg
    ∧ content msg
      = "Successfully transferred to " +:+ agent_name agent
        +:+ " for task: " +:+ fmt (tool_kwargs handoff !! "task")
        +:+ ", reason: " +:+ fmt (tool_kwargs handoff !! "reason")
    ∧ get_all (put_all m (transfer_batch self tool_calls agent handoff) (heap s)) m
      = get_all (heap s) m
        ++ (regular_result self <$> regular_of self tool_calls) ++ [msg]
    ∧ run = {| run_agent := agent_name agent;
               run_chat_history :=
                 token_window (get_all (heap s) m
                               ++ (regular_result self <$> regular_of self tool_calls)
                               ++ [msg]);
               run_memory :=
                 get_all (heap s) m
                 ++ (regular_result self <$> regular_of self tool_calls) ++ [msg] |}
    ∧ handle tool_calls s
      = resume create_handoff_back_messages token_window self (agent_name agent) m r
          (mkState h (Some m) [] (stream s) (runs s ++ [run]))
    ∧ runs (handle tool_calls s).2 = runs s ++ [run].
Proof.
  intros Hone Hsome Hm Hst Hrun.
  assert (get_all (put_all m (transfer_batch self tool_calls agent handoff) (heap s)) m
          = get_all (heap s) m ++ transfer_batch self tool_calls agent handoff) as Hmem
    by (by apply get_all_put_all).
  assert (handle tool_calls s
          = resume create_handoff_back_messages token_window self (agent_name agent) m r
              (mkState h (Some m) [] (stream s)
                 (runs s ++ [ {| run_agent := agent_name agent;
                                 run_chat_history :=
                                   token_window (get_all (heap s) m
                                     ++ transfer_batch self tool_calls agent handoff);
                                 run_memory :=
                                   get_all (heap s) m
                                   ++ transfer_batch self tool_calls agent handoff |} ])))
    as Hhandle.
  { rewrite (known_handoff_unfold _ _ _ _ _ _ _ m Hone Hsome Hm).
    rewrite (_run_agent_merge agent _ m r h);
      [|done|simpl; by rewrite Hmem].
    unfold started. simpl. rewrite Hmem.
    destruct r as [memo|e]; [|done].
    unfold resume. rewrite bind_eq.
    destruct (merge_back self m memo _) as [[[]|e] s3]; [|done].
    unfold after_run. rewrite bind_eq.
    by destruct (add_handoff_back_messages self). }
  eexists (transfer_message agent handoff), _.
  split_and!; [done|apply handoff_kwargs_correlated|done|exact Hmem|reflexivity| |].
  - exact Hhandle.
  - rewrite Hhandle. by rewrite quiet_resume.
Qed.

End OneRun.

Lemma known_agent_runs_once_witness :
  ∃ (msg : ChatMessage) (run : AgentRun),
    transfer_batch (team "full_history") [add_call; handoff_call] researcher handoff_call
    = (regular_result (team "full_history")
         <$> regular_of (team "full_history") [add_call; handoff_call]) ++ [msg]
    ∧ correlated handoff_call msg
    ∧ content msg
      = "Successfully transferred to " +:+ agent_name researcher
        +:+ " for task: " +:+ fmt (tool_kwargs handoff_call !! "task")
        +:+ ", reason: " +:+ fmt (tool_kwargs handoff_call !! "reason")
    ∧ get_all (put_all memory0
                 (transfer_batch (team "full_history") [add_call; handoff_call]
                    researcher handoff_call) (heap s0)) memory0
      = get_all (heap s0) memory0
        ++ (regular_result (team "full_history")
              <$> regular_of (team "full_history") [add_call; handoff_call]) ++ [msg]
    ∧ run = {| run_agent := agent_name researcher;
               run_chat_history :=
                 whole (get_all (heap s0) memory0
                        ++ (regular_result (team "full_history")
                              <$> regular_of (team "full_history") [add_call; handoff_call])
                        ++ [msg]);
               run_memory :=
                 get_all (heap s0) memory0
                 ++ (regular_result (team "full_history")
                       <$> regular_of (team "full_history") [add_call; handoff_call])
                 ++ [msg] |}
    ∧ turn (team "full_history") [add_call; handoff_call] s0
      = resume handoff_back whole (team "full_history") (agent_name researcher) memory0
          (Ok (model_copy memory0))
          (mkState
             (put memory0 finding2
                (put memory0 finding1
                   (put_all memory0
                      (transfer_batch (team "full_history") [add_call; handoff_call]
                         researcher handoff_call) (heap s0))))
             (Some memory0) [] (stream s0) (runs s0 ++ [run]))
    ∧ runs (turn (team "full_history") [add_call; handoff_call] s0).2 = runs s0 ++ [run].
Proof.
  apply (known_agent_runs_once handoff_back whole (team "full_history")
           [add_call; handoff_call] handoff_call researcher s0 memory0
           (Ok (model_copy memory0))
           (put memory0 finding2
              (put memory0 finding1
                 (put_all memory0
                    (transfer_batch (team "full_history") [add_call; handoff_call]
                       researcher handoff_call) (heap s0))))).
  - vm_compute. reflexivity.
  - reflexivity.
  - reflexivity.
  - decide_by_computation.
  - reflexivity.
Defined.
